(** * Kova402 SDK: the x402 challenge/response handshake

    A shallow embedding of [src/client/index.ts] (the requesting-party client
    [createKovaClient]) and of the server-side [KovaPaymentHandler], with the
    properties of the handshake proved over it.

    Modelling conventions.
    - JavaScript values are the inductive [JsValue]; an object is an
      association list in insertion order, with distinct keys.
    - A [string] holds the UTF-8 bytes of a JavaScript string; the texts the
      program itself writes (keys, header names, hexadecimal digits, decimal
      numbers) are ASCII, where a byte is a code unit.
    - A thrown exception / rejected promise is [Throw e]; a normal completion
      is [Ok a].
    - The built-ins of the JavaScript runtime ([JSON.parse], [JSON.stringify],
      [BigInt], [String] conversion) are the fields of the class [JsRuntime]:
      the program is verified for every runtime.
    - The outside world (the network behind the global [fetch], the clock
      behind [Date.now], the random source) is a [World]: an oracle that
      answers each interaction from the history of interactions so far.
    - Effectful code lives in the monad [M]: it extends the chronological
      trace of [Event]s and either returns or throws. *)

From Stdlib Require Import ZArith Floats DecimalString Ascii.
From stdpp Require Import gmap strings list fin_maps.

Local Set Warnings "-register-all".
Local Open Scope Z_scope.
Local Open Scope string_scope.
Local Open Scope list_scope.

(* ===================================================================== *)
(** ** JavaScript values and errors *)
(* ===================================================================== *)

Inductive JsValue : Type :=
| JUndefined
| JNull
| JBool (b : bool)
| JNum (x : float)
| JStr (s : string)
| JArr (items : list JsValue)
| JObj (props : list (string * JsValue)).

(** An exception value: the constructor name and the message. *)
Record JsError := MkError { err_name : string; err_message : string }.

Inductive Outcome (A : Type) : Type :=
| Ok (a : A)
| Throw (e : JsError).
Arguments Ok {A} a.
Arguments Throw {A} e.

Definition TypeError_property (key : string) : JsError :=
  MkError "TypeError" ("Cannot read properties of undefined or null (reading '" +:+ key +:+ "')").

(** [new Error(message)] *)
Definition new_Error (message : string) : JsError := MkError "Error" message.

(** ToBoolean: [undefined], [null], [false], [0], [-0], [NaN] and [""] are
    falsy, every other value (every array and object too) is truthy. *)
Definition truthy (v : JsValue) : bool :=
  match v with
  | JUndefined | JNull => false
  | JBool b => b
  | JNum x => negb (PrimFloat.eqb x 0%float || PrimFloat.is_nan x)
  | JStr s => negb (String.eqb s "")
  | JArr _ | JObj _ => true
  end.

Fixpoint assoc_get (props : list (string * JsValue)) (key : string) : option JsValue :=
  match props with
  | [] => None
  | (k, v) :: rest => if String.eqb k key then Some v else assoc_get rest key
  end.

(** [v.key], for the keys this program reads ([paymentPayload],
    [paymentRequirements], [maxAmountRequired], [payTo], [scheme],
    [isValid]): none of them is a property of a built-in prototype, so the
    read is [undefined] on every primitive and array, the own property on an
    object, and a [TypeError] on [undefined] and [null]. *)
Definition js_get (v : JsValue) (key : string) : Outcome JsValue :=
  match v with
  | JUndefined | JNull => Throw (TypeError_property key)
  | JObj props => Ok (default JUndefined (assoc_get props key))
  | _ => Ok JUndefined
  end.

(** [v === true] *)
Definition strict_eq_true (v : JsValue) : bool :=
  match v with
  | JBool true => true
  | _ => false
  end.

(** The built-ins of the runtime the program calls.
    - [JSON_parse s] is [None] when [JSON.parse(s)] throws a [SyntaxError];
      the objects it returns list each key once;
    - [BigInt v] throws on what is not an integer literal;
    - [ToString v] is the string conversion of a template literal; on a
      string it is the string itself (see [template]). *)
Class JsRuntime := {
  JSON_parse : string -> option JsValue;
  JSON_stringify : JsValue -> string;
  BigInt : JsValue -> Outcome Z;
  ToString : JsValue -> string;
}.

(** [`${v}`] *)
Definition template `{JsRuntime} (v : JsValue) : string :=
  match v with
  | JStr s => s
  | _ => ToString v
  end.

(** [n.toString()] of an integral number or of a bigint: decimal digits,
    with a leading [-] below zero. *)
Definition Z_toString (n : Z) : string := NilZero.string_of_int (Z.to_int n).

(* ===================================================================== *)
(** ** Strings: the helpers of the standard library the program calls *)
(* ===================================================================== *)

(** ASCII lower-casing, as the Fetch standard normalises header names. *)
Definition ascii_lower (c : ascii) : ascii :=
  let n := N_of_ascii c in
  if ((65 <=? n) && (n <=? 90))%N then ascii_of_N (n + 32) else c.

Fixpoint lowercase (s : string) : string :=
  match s with
  | EmptyString => EmptyString
  | String c rest => String (ascii_lower c) (lowercase rest)
  end.

Fixpoint string_forall (p : ascii -> bool) (s : string) : bool :=
  match s with
  | EmptyString => true
  | String c rest => p c && string_forall p rest
  end.

(** [s.repeat(n)] *)
Fixpoint String_repeat (s : string) (n : nat) : string :=
  match n with
  | O => ""
  | S k => s +:+ String_repeat s k
  end.

(** [parts.join('')] *)
Definition join_empty (parts : list string) : string :=
  foldr String.append "" parts.

Definition hex_digit (n : N) : ascii :=
  if (n <? 10)%N then ascii_of_N (48 + n) else ascii_of_N (87 + n).

(** [b.toString(16)] for a byte: one digit below 16, two from 16 on. *)
Definition byte_toString16 (b : Byte.byte) : string :=
  let n := Byte.to_N b in
  if (n <? 16)%N then String (hex_digit n) ""
  else String (hex_digit (n / 16)) (String (hex_digit (n mod 16)) "").

(** [s.padStart(targetLength, fill)] for a one-character [fill]. *)
Definition padStart (s : string) (targetLength : nat) (fill : ascii) : string :=
  String_repeat (String fill "") (targetLength - String.length s) +:+ s.

(** [buffer.toString('hex')]: two lower-case digits per byte. *)
Definition Buffer_toString_hex (bytes : list Byte.byte) : string :=
  join_empty
    (map (fun b => let n := Byte.to_N b in
                   String (hex_digit (n / 16)) (String (hex_digit (n mod 16)) ""))
         bytes).

(** [url.replace(/\/$/, '')]: one trailing slash is removed. *)
Fixpoint strip_trailing_slash (s : string) : string :=
  match s with
  | EmptyString => EmptyString
  | String c rest =>
      match rest with
      | EmptyString => if Ascii.eqb c "/" then EmptyString else s
      | _ => String c (strip_trailing_slash rest)
      end
  end.

(* ===================================================================== *)
(** ** Headers, requests and responses *)
(* ===================================================================== *)

(** The [Headers] class of the Fetch standard: names are kept lower-cased,
    so that every operation is case-insensitive in the name; the values of
    a repeated name are kept joined by a comma, as [get] returns them. *)
Definition Headers := gmap string string.

(** A header name or value is a [ByteString]: no code unit above U+00FF.
    In UTF-8 these are the ASCII bytes and the two-byte sequences led by
    [C2] or [C3] (U+0080 to U+00FF). *)
Fixpoint is_ByteString (s : string) : bool :=
  match s with
  | EmptyString => true
  | String c rest =>
      let n := N_of_ascii c in
      if (n <? 128)%N then is_ByteString rest
      else if ((n =? 194) || (n =? 195))%N then
        match rest with
        | EmptyString => false
        | String d rest' =>
            ((128 <=? N_of_ascii d) && (N_of_ascii d <? 192))%N && is_ByteString rest'
        end
      else false
  end.

(** HTTP whitespace: tab, line feed, carriage return, space. *)
Definition is_http_whitespace (c : ascii) : bool :=
  let n := N_of_ascii c in
  ((n =? 9) || (n =? 10) || (n =? 13) || (n =? 32))%N.

Fixpoint strip_leading_whitespace (s : string) : string :=
  match s with
  | EmptyString => EmptyString
  | String c rest => if is_http_whitespace c then strip_leading_whitespace rest else s
  end.

Fixpoint strip_trailing_whitespace (s : string) : string :=
  match s with
  | EmptyString => EmptyString
  | String c rest =>
      match strip_trailing_whitespace rest with
      | EmptyString => if is_http_whitespace c then EmptyString else String c EmptyString
      | kept => String c kept
      end
  end.

(** A value is normalized before it is stored: the whitespace at its two
    ends is removed. *)
Definition normalize_value (value : string) : string :=
  strip_trailing_whitespace (strip_leading_whitespace value).

(** The characters of a header name (a token of RFC 9110). *)
Definition is_tchar (c : ascii) : bool :=
  let n := N_of_ascii c in
  (((48 <=? n) && (n <=? 57)) || ((65 <=? n) && (n <=? 90)) || ((97 <=? n) && (n <=? 122))
   || (n =? 33) || ((35 <=? n) && (n <=? 39)) || (n =? 42) || (n =? 43) || (n =? 45)
   || (n =? 46) || (n =? 94) || (n =? 95) || (n =? 96) || (n =? 124) || (n =? 126))%N.

Definition is_header_name (name : string) : bool :=
  negb (String.eqb name "") && string_forall is_tchar name.

(** A normalized value may hold neither NUL nor a line feed nor a carriage
    return. *)
Definition is_header_value (value : string) : bool :=
  string_forall (fun c => let n := N_of_ascii c in
                          negb ((n =? 0) || (n =? 10) || (n =? 13))%N) value.

Definition TypeError_header : JsError :=
  MkError "TypeError" "Invalid header name or value".

(** What [set] and [append] do to their arguments first: both must be
    [ByteString]s, the value is normalized, the name must be a token and
    the normalized value a header value, or a [TypeError] is thrown. *)
Definition checked_header (name value : string) : Outcome (string * string) :=
  if is_ByteString name && is_ByteString value
     && is_header_name name && is_header_value (normalize_value value)
  then Ok (lowercase name, normalize_value value)
  else Throw TypeError_header.

(** [h.get(name)], for a name that is a token (the program reads
    [X-Payment] only). *)
Definition Headers_get (h : Headers) (name : string) : option string :=
  h !! lowercase name.

(** [h.set(name, value)] *)
Definition Headers_set (h : Headers) (name value : string) : Outcome Headers :=
  match checked_header name value with
  | Throw e => Throw e
  | Ok (key, stored) => Ok (<[key := stored]> h)
  end.

(** [h.append(name, value)]: the values of a repeated name are joined by a
    comma and a space. *)
Definition Headers_append (h : Headers) (name value : string) : Outcome Headers :=
  match checked_header name value with
  | Throw e => Throw e
  | Ok (key, stored) =>
      match h !! key with
      | Some old => Ok (<[key := old +:+ ", " +:+ stored]> h)
      | None => Ok (<[key := stored]> h)
      end
  end.

(** What [new Headers(init)] accepts: another [Headers], or a record (or a
    sequence of pairs), whose entries are appended in order. *)
Inductive HeadersInit : Type :=
| InitHeaders (h : Headers)
| InitRecord (entries : list (string * string)).

(** Appending the entries in order; the first ill-formed one throws. *)
Fixpoint Headers_fill (h : Headers) (entries : list (string * string)) : Outcome Headers :=
  match entries with
  | [] => Ok h
  | (name, value) :: rest =>
      match Headers_append h name value with
      | Throw e => Throw e
      | Ok h' => Headers_fill h' rest
      end
  end.

Definition new_Headers (init : option HeadersInit) : Outcome Headers :=
  match init with
  | None => Ok ∅
  | Some (InitHeaders h) => Ok h
  | Some (InitRecord entries) => Headers_fill ∅ entries
  end.

(** [RequestInit], with the members this library sets or forwards. *)
Record RequestInit := {
  init_method : option string;
  init_headers : option HeadersInit;
  init_body : option string;
}.

(** [init?.headers] *)
Definition init_headers_opt (init : option RequestInit) : option HeadersInit :=
  match init with
  | None => None
  | Some i => init_headers i
  end.

(** [{ ...init, headers: h }] *)
Definition init_with_headers (init : option RequestInit) (h : Headers) : RequestInit :=
  match init with
  | None => {| init_method := None; init_headers := Some (InitHeaders h); init_body := None |}
  | Some i => {| init_method := init_method i; init_headers := Some (InitHeaders h);
                 init_body := init_body i |}
  end.

(** A [Response]: its status, and what awaiting [response.json()] gives
    (a rejection when the body cannot be read or is not JSON). *)
Record Response := {
  status : Z;
  json : Outcome JsValue;
}.

(* ===================================================================== *)
(** ** Events, the world and the monad of effects *)
(* ===================================================================== *)

Inductive Event : Type :=
| EvFetch (input : string) (init : option RequestInit)   (* the global fetch(input, init) *)
| EvWallet                                               (* wallet.publicKey.toBase58() *)
| EvDateNow                                              (* Date.now() *)
| EvRandomBytes (n : nat)                                (* crypto.randomBytes(n) *)
| EvGetRandomValues (n : nat)                            (* crypto.getRandomValues(new Uint8Array(n)) *)
| EvConsoleError (label : option string) (e : JsError)   (* console.error(label, e) / console.error(e) *)
| EvRespond (code : Z) (body : JsValue)                  (* res.status(code).json(body) *)
| EvCallback (payment : JsValue)                         (* config.onPaymentVerified(payment) *)
| EvNext.                                                (* next() *)

Definition Trace := list Event.

(** The world answers an interaction from the history that ends with it. *)
Record World := {
  net : Trace -> Outcome Response;
  clock : Trace -> Z;
  entropy : Trace -> nat -> Byte.byte;
  window_defined : bool;
}.

Definition M (A : Type) : Type := Trace -> Outcome A * Trace.

Definition ret {A} (a : A) : M A := fun t => (Ok a, t).

Definition throw {A} (e : JsError) : M A := fun t => (Throw e, t).

Definition bind {A B} (m : M A) (k : A -> M B) : M B :=
  fun t => match m t with
           | (Ok a, t') => k a t'
           | (Throw e, t') => (Throw e, t')
           end.

(** [try { m } catch (e) { handler e }] *)
Definition try_catch {A} (m : M A) (handler : JsError -> M A) : M A :=
  fun t => match m t with
           | (Ok a, t') => (Ok a, t')
           | (Throw e, t') => handler e t'
           end.

(** A pure expression that may throw. *)
Definition lift {A} (o : Outcome A) : M A := fun t => (o, t).

Definition emit (e : Event) : M unit := fun t => (Ok tt, t ++ [e]).

Notation "'let!' x ':=' m 'in' k" := (bind m (fun x => k))
  (at level 10, x name, m at level 100, k at level 200).
Notation "'do!' m 'in' k" := (bind m (fun _ => k))
  (at level 10, m at level 100, k at level 200).

(** A promise that has not been awaited yet: the rest of the computation,
    run when the caller awaits it or, for a detached promise, after the
    caller's synchronous code. *)
Definition Promise (A : Type) : Type := M A.

(** [await p] *)
Definition await {A} (p : Promise A) : M A := p.

(** [p.catch(handler)] *)
Definition promise_catch {A} (p : Promise A) (handler : JsError -> M A) : Promise A :=
  try_catch p handler.

(** A promise nobody awaits: its reactions run, its outcome is dropped. *)
Definition detached {A} (p : Promise A) : M unit :=
  fun t => (Ok tt, (p t).2).

(** The networks a configuration may name. *)
Inductive Network : Type :=
| solana_mainnet | solana_devnet | base_mainnet | base_sepolia
| bsc_mainnet | bsc_testnet | bitcoin_mainnet | bitcoin_testnet.

Definition network_name (n : Network) : string :=
  match n with
  | solana_mainnet => "solana-mainnet"
  | solana_devnet => "solana-devnet"
  | base_mainnet => "base-mainnet"
  | base_sepolia => "base-sepolia"
  | bsc_mainnet => "bsc-mainnet"
  | bsc_testnet => "bsc-testnet"
  | bitcoin_mainnet => "bitcoin-mainnet"
  | bitcoin_testnet => "bitcoin-testnet"
  end.

(** The interactions with the world, shared by the client and the server. *)
Section Primitives.
Context (W : World).

(** Calling the global [fetch]: the request is issued at once, the
    response is behind the promise. *)
Definition fetch_call (input : string) (init : option RequestInit) : M (Promise Response) :=
  fun t => let t' := t ++ [EvFetch input init] in (Ok (lift (net W t')), t').

(** [await fetch(input, init)] *)
Definition global_fetch (input : string) (init : option RequestInit) : M Response :=
  let! p := fetch_call input init in await p.

(** [await response.json()] *)
Definition response_json (response : Response) : M JsValue := lift (json response).

Definition Date_now : M Z :=
  fun t => let t' := t ++ [EvDateNow] in (Ok (clock W t'), t').

(** [randomBytes(n)] of Node's [crypto]: [n] bytes of the random source. *)
Definition randomBytes (n : nat) : M (list Byte.byte) :=
  fun t => let t' := t ++ [EvRandomBytes n] in (Ok (map (entropy W t') (seq 0 n)), t').

(** [Array.from(crypto.getRandomValues(new Uint8Array(n)))] *)
Definition crypto_getRandomValues (n : nat) : M (list Byte.byte) :=
  fun t => let t' := t ++ [EvGetRandomValues n] in (Ok (map (entropy W t') (seq 0 n)), t').

Definition console_error (label : option string) (e : JsError) : M unit :=
  emit (EvConsoleError label e).
End Primitives.

(* ===================================================================== *)
(** ** The requesting-party client ([createKovaClient]) *)
(* ===================================================================== *)

Module Client.

Record WalletAdapter := { publicKey_toBase58 : string }.

Record KovaConfig := {
  facilitatorUrl : string;
  network : Network;
  wallet : WalletAdapter;
  maxPaymentAmount : option Z;     (* an optional bigint *)
}.

Section Client.
Context `{RT : JsRuntime} (W : World).

(** [generateNonce]: Node's branch when [window] is not defined, the
    browser's branch otherwise. *)
Definition generateNonce : M string :=
  if negb (window_defined W) then
    let! bytes := randomBytes W 32 in
    ret ("0x" +:+ Buffer_toString_hex bytes)
  else
    let! bytes := crypto_getRandomValues W 32 in
    ret ("0x" +:+ join_empty (map (fun b => padStart (byte_toString16 b) 2 "0") bytes)).

Definition createPaymentPayload (wallet : WalletAdapter) (requirements : JsValue)
    (network : string) : M JsValue :=
  let! from := (fun t => (Ok (publicKey_toBase58 wallet), t ++ [EvWallet])) in
  let! to := lift (js_get requirements "payTo") in
  let! value := lift (js_get requirements "maxAmountRequired") in
  let! now1 := Date_now W in
  let validAfter := Z_toString (now1 / 1000) in
  let! now2 := Date_now W in
  let validBefore := Z_toString (now2 / 1000 + 3600) in
  let! nonce := generateNonce in
  let! scheme := lift (js_get requirements "scheme") in
  ret (JObj [("x402Version", JNum 1);
             ("scheme", scheme);
             ("network", JStr network);
             ("payload",
              JObj [("from", JStr from);
                    ("to", to);
                    ("value", value);
                    ("validAfter", JStr validAfter);
                    ("validBefore", JStr validBefore);
                    ("nonce", JStr nonce);
                    ("v", JStr "0x00");
                    ("r", JStr ("0x" +:+ String_repeat "0" 64));
                    ("s", JStr ("0x" +:+ String_repeat "0" 64))])]).

(** The envelope of the [X-Payment] header. *)
Definition envelope (paymentPayload paymentRequirements : JsValue) : JsValue :=
  JObj [("x402Version", JNum 1);
        ("paymentPayload", paymentPayload);
        ("paymentRequirements", paymentRequirements)].

Definition limit_message (amount : JsValue) (limit : Z) : string :=
  "Payment amount " +:+ template amount +:+ " exceeds maximum " +:+ Z_toString limit.

(** The ceiling check. In the guard
    [maxPaymentAmount && BigInt(...) > maxPaymentAmount] an absent
    ceiling and the bigint [0n] are falsy, and then the right operand is
    not evaluated. *)
Definition check_limit (maxPaymentAmount : option Z) (paymentRequirements : JsValue)
    : M unit :=
  match maxPaymentAmount with
  | None => ret tt
  | Some limit =>
      if (limit =? 0)%Z then ret tt
      else
        let! amount := lift (js_get paymentRequirements "maxAmountRequired") in
        let! requested := lift (BigInt amount) in
        if (requested >? limit)%Z then
          let! shown := lift (js_get paymentRequirements "maxAmountRequired") in
          throw (new_Error (limit_message shown limit))
        else ret tt
  end.

(** [new Headers(init?.headers)], then [set('X-Payment', JSON.stringify(...))]:
    either step may throw a [TypeError]. *)
Definition payment_headers (init : option RequestInit)
    (paymentPayload paymentRequirements : JsValue) : Outcome Headers :=
  match new_Headers (init_headers_opt init) with
  | Throw e => Throw e
  | Ok headersWithPayment =>
      Headers_set headersWithPayment "X-Payment"
                  (JSON_stringify (envelope paymentPayload paymentRequirements))
  end.

(** The client's [fetch]. *)
Definition fetch (config : KovaConfig) (input : string) (init : option RequestInit)
    : M Response :=
  let! response := global_fetch W input init in
  if (status response =? 402)%Z then
    let! body := response_json response in
    let! paymentRequirements := lift (js_get body "paymentRequirements") in
    do! check_limit (maxPaymentAmount config) paymentRequirements in
    let! paymentPayload :=
      createPaymentPayload (wallet config) paymentRequirements
                           (network_name (network config)) in
    let! headersWithPayment :=
      lift (payment_headers init paymentPayload paymentRequirements) in
    global_fetch W input (Some (init_with_headers init headersWithPayment))
  else ret response.

(** [getHealth]: a GET of [/health] under the configured URL, parsed as
    JSON; the status of the response is not looked at. *)
Definition getHealth (config : KovaConfig) : M JsValue :=
  let! response := global_fetch W (facilitatorUrl config +:+ "/health") None in
  response_json response.

(** [getSupported]: the same for [/supported]. *)
Definition getSupported (config : KovaConfig) : M JsValue :=
  let! response := global_fetch W (facilitatorUrl config +:+ "/supported") None in
  response_json response.

End Client.
End Client.

(* ===================================================================== *)
(** ** The resource-server handler ([KovaPaymentHandler]) *)
(* ===================================================================== *)

Module Server.

(** A header value of an Express-style record: a string or a list of
    strings; [undefined] is the absence of the key. *)
Inductive HeaderValue : Type :=
| HString (s : string)
| HList (l : list string).

(** [Headers | Record<string, string | string[] | undefined>] *)
Inductive HeadersArg : Type :=
| ArgHeaders (h : Headers)
| ArgRecord (r : gmap string HeaderValue).

Record HandlerConfig := {
  config_facilitatorUrl : string;
  config_network : Network;
  config_treasuryAddress : string;
}.

Record KovaPaymentHandler := {
  facilitatorUrl : string;
  network : string;
  treasuryAddress : string;
}.

(** The constructor. *)
Definition new_KovaPaymentHandler (config : HandlerConfig) : KovaPaymentHandler :=
  {| facilitatorUrl := strip_trailing_slash (config_facilitatorUrl config);
     network := network_name (config_network config);
     treasuryAddress := config_treasuryAddress config |}.

(** Truthiness of [headers[name]]: a missing entry and the empty string
    are falsy; every list, the empty one too, is truthy. *)
Definition header_truthy (v : option HeaderValue) : bool :=
  match v with
  | None => false
  | Some (HString s) => negb (String.eqb s "")
  | Some (HList _) => true
  end.

Record Response402 := {
  response_status : Z;
  response_body : JsValue;
}.

Record MiddlewareConfig := {
  amount : string;
  resource : option string;
  onPaymentVerified : bool;        (* is the callback provided? *)
}.

Record Request := {
  headers : gmap string HeaderValue;
  originalUrl : option string;
  url : option string;
}.

(** [a || b] on optional strings. *)
Definition or_else (a : option string) (b : string) : string :=
  match a with
  | Some s => if String.eqb s "" then b else s
  | None => b
  end.

Section Server.
Context `{RT : JsRuntime} (W : World).

(** The string of the payment header, before parsing. *)
Definition paymentHeader_of (headers : HeadersArg) : option string :=
  match headers with
  | ArgHeaders h => Headers_get h "X-Payment"
  | ArgRecord r =>
      let xPayment :=
        if header_truthy (r !! "x-payment") then r !! "x-payment" else r !! "X-Payment" in
      match xPayment with
      | Some (HString s) => Some s
      | Some (HList (s :: _)) => Some s
      | _ => None
      end
  end.

(** The body of the [try] of [extractPayment]; [None] is [return null]. *)
Definition parse_envelope (paymentHeader : string) : Outcome (option JsValue) :=
  match JSON_parse paymentHeader with
  | None => Throw (MkError "SyntaxError" "Unexpected token in JSON")
  | Some parsed =>
      match js_get parsed "paymentPayload" with
      | Throw e => Throw e
      | Ok paymentPayload =>
          if negb (truthy paymentPayload) then Ok None
          else
            match js_get parsed "paymentRequirements" with
            | Throw e => Throw e
            | Ok paymentRequirements =>
                if negb (truthy paymentRequirements) then Ok None else Ok (Some parsed)
            end
      end
  end.

Definition extractPayment (headers : HeadersArg) : option JsValue :=
  match paymentHeader_of headers with
  | None => None
  | Some paymentHeader =>
      if String.eqb paymentHeader "" then None
      else
        match parse_envelope paymentHeader with
        | Ok result => result
        | Throw _ => None
        end
  end.

(** [createPaymentRequirements]: an [async] function without an
    [await]; it builds the object and has no effect. *)
Definition createPaymentRequirements (this : KovaPaymentHandler)
    (amount resource : string) (asset : option string) : JsValue :=
  JObj ([("scheme", JStr "exact");
         ("network", JStr (network this));
         ("payTo", JStr (treasuryAddress this));
         ("maxAmountRequired", JStr amount);
         ("resource", JStr resource)]
        ++ match asset with
           | Some a => if String.eqb a "" then [] else [("asset", JStr a)]
           | None => []
           end).

(** [{ method: 'POST', headers: { 'Content-Type': 'application/json' }, body }] *)
Definition post_json (body : string) : RequestInit :=
  {| init_method := Some "POST";
     init_headers := Some (InitRecord [("Content-Type", "application/json")]);
     init_body := Some body |}.

(** The object both facilitator calls serialize. *)
Definition facilitator_request (paymentPayload requirements : JsValue) : JsValue :=
  JObj [("x402Version", JNum 1);
        ("paymentPayload", paymentPayload);
        ("paymentRequirements", requirements)].

(** The [init] of the POST to the facilitator: only
    [payment.paymentPayload] is read from the envelope. *)
Definition facilitator_init (payment requirements : JsValue) : Outcome RequestInit :=
  match js_get payment "paymentPayload" with
  | Throw e => Throw e
  | Ok paymentPayload =>
      Ok (post_json (JSON_stringify (facilitator_request paymentPayload requirements)))
  end.

Definition verifyPayment (this : KovaPaymentHandler) (payment requirements : JsValue)
    : M bool :=
  try_catch
    (let! init := lift (facilitator_init payment requirements) in
     let! response := global_fetch W (facilitatorUrl this +:+ "/verify") (Some init) in
     let! result := response_json response in
     let! isValid := lift (js_get result "isValid") in
     ret (strict_eq_true isValid))
    (fun error =>
       do! console_error (Some "Payment verification failed:") error in
       ret false).

(** The [catch] block of [settlePayment]. *)
Definition settle_catch (error : JsError) : M JsValue :=
  do! console_error (Some "Payment settlement failed:") error in
  throw error.

(** Calling [settlePayment]: the body runs up to its first [await] (the
    request is issued), the rest is behind the returned promise. A throw
    before the first [await] runs the [catch] block at once. *)
Definition settlePayment_call (this : KovaPaymentHandler) (payment requirements : JsValue)
    : M (Promise JsValue) :=
  match facilitator_init payment requirements with
  | Throw e => fun t => let r := settle_catch e t in (Ok (lift r.1), r.2)
  | Ok init =>
      let! pending := fetch_call W (facilitatorUrl this +:+ "/settle") (Some init) in
      ret (try_catch
             (let! response := await pending in
              response_json response)
             settle_catch)
  end.

(** [await this.settlePayment(payment, requirements)] *)
Definition settlePayment (this : KovaPaymentHandler) (payment requirements : JsValue)
    : M JsValue :=
  let! p := settlePayment_call this payment requirements in await p.

Definition create402Response (requirements : JsValue) : Response402 :=
  {| response_status := 402;
     response_body := JObj [("error", JStr "Payment Required");
                            ("x402Version", JNum 1);
                            ("paymentRequirements", requirements)] |}.

(** [res.status(code).json(body)] *)
Definition res_status_json (code : Z) (body : JsValue) : M unit :=
  emit (EvRespond code body).

(** The request handler that [middleware(config)] returns. The functions
    the caller supplies ([res], [next], [onPaymentVerified]) are recorded
    as events. The settlement promise is detached: [next()] is called
    right after the call, and the promise settles after the handler. *)
Definition middleware (this : KovaPaymentHandler) (config : MiddlewareConfig)
    (req : Request) : M unit :=
  let payment := extractPayment (ArgRecord (headers req)) in
  let resource :=
    or_else (resource config) (or_else (originalUrl req) (or_else (url req) "/")) in
  let requirements := createPaymentRequirements this (amount config) resource None in
  match payment with
  | None =>
      let response := create402Response requirements in
      res_status_json (response_status response) (response_body response)
  | Some payment =>
      let! isValid := verifyPayment this payment requirements in
      if negb isValid then
        res_status_json 402 (JObj [("error", JStr "Invalid payment")])
      else
        do! (if onPaymentVerified config then emit (EvCallback payment) else ret tt) in
        let! settling := settlePayment_call this payment requirements in
        do! emit EvNext in
        detached (promise_catch settling
                    (fun e => do! console_error None e in ret JUndefined))
  end.

End Server.
End Server.

(* ===================================================================== *)
(** ** Vocabulary of the statements *)
(* ===================================================================== *)

Definition is_next (e : Event) : bool :=
  match e with EvNext => true | _ => false end.

Definition is_fetch (e : Event) : bool :=
  match e with EvFetch _ _ => true | _ => false end.

Definition is_fetch_to (target : string) (e : Event) : bool :=
  match e with EvFetch input _ => String.eqb input target | _ => false end.

Definition is_wallet (e : Event) : bool :=
  match e with EvWallet => true | _ => false end.

Definition is_respond (e : Event) : bool :=
  match e with EvRespond _ _ => true | _ => false end.

(** How often an event of a kind occurs in a trace. *)
Definition count (kind : Event -> bool) (t : Trace) : nat :=
  length (List.filter kind t).

(** What a failed settlement leaves in the trace once its promise settles:
    the log of the [catch] block of [settlePayment], then the log of the
    [.catch(console.error)] of the middleware; nothing on success. *)
Definition settle_aftermath (answer : Outcome Response) : Trace :=
  let logs e := [EvConsoleError (Some "Payment settlement failed:") e;
                 EvConsoleError None e] in
  match answer with
  | Throw e => logs e
  | Ok response =>
      match json response with
      | Throw e => logs e
      | Ok _ => []
      end
  end.

Definition is_nullish (v : JsValue) : bool :=
  match v with JUndefined | JNull => true | _ => false end.

(** The event of the random source [generateNonce] uses in a world. *)
Definition random_event (W : World) : Event :=
  if negb (window_defined W) then EvRandomBytes 32 else EvGetRandomValues 32.

(** The 32 bytes the random source gives at a point of the history. *)
Definition random32 (W : World) (t : Trace) : list Byte.byte :=
  map (entropy W t) (seq 0 32).

(** The events of building a payment payload. *)
Definition payload_events (W : World) : Trace :=
  [EvWallet; EvDateNow; EvDateNow; random_event W].


(** The values a list of entries gives a name, normalized, in order. *)
Definition values_of (entries : list (string * string)) (name : string) : list string :=
  map (fun kv => normalize_value kv.2)
      (List.filter (fun kv => String.eqb (lowercase kv.1) (lowercase name)) entries).

(** Joining one more value to what a name already has. *)
Definition join_value (sofar : option string) (value : string) : option string :=
  match sofar with
  | Some old => Some (old +:+ ", " +:+ value)
  | None => Some value
  end.

(** What the caller's [init] says of a header: nothing without headers,
    the entry of a [Headers] object, the joined values of a record. *)
Definition original_header (init : option RequestInit) (name : string) : option string :=
  match init_headers_opt init with
  | None => None
  | Some (InitHeaders h) => Headers_get h name
  | Some (InitRecord entries) => foldl join_value None (values_of entries name)
  end.

Fixpoint ends_with_slash (s : string) : bool :=
  match s with
  | EmptyString => false
  | String c rest =>
      match rest with
      | EmptyString => Ascii.eqb c "/"
      | _ => ends_with_slash rest
      end
  end.

(** A lower-case hexadecimal digit: [0]-[9] or [a]-[f]. *)
Definition is_hex_lower (c : ascii) : bool :=
  let n := N_of_ascii c in
  (((48 <=? n) && (n <=? 57)) || ((97 <=? n) && (n <=? 102)))%N.

Definition is_callback (e : Event) : bool :=
  match e with EvCallback _ => true | _ => false end.

Definition is_log (e : Event) : bool :=
  match e with EvConsoleError _ _ => true | _ => false end.

(* ===================================================================== *)
(** ** A concrete runtime and concrete worlds *)
(* ===================================================================== *)

(** One runtime and a few worlds on which the definitions above evaluate:
    they instantiate the theorems below and carry the concrete runs. The
    serializer covers the JSON values met here (strings without escapes,
    integral numbers); the parser inverts it on a table of known values. *)
Module Samples.

Definition quote (s : string) : string :=
  String (ascii_of_nat 34) s +:+ String (ascii_of_nat 34) "".

(** The integer a floating-point number denotes, if it is one. *)
Definition float_to_Z (x : float) : option Z :=
  match Prim2SF x with
  | S754_zero _ => Some 0
  | S754_finite sign m e =>
      let magnitude :=
        if (0 <=? e)%Z then Some (Z.pos m * 2 ^ e)
        else if (Z.pos m mod 2 ^ (- e) =? 0)%Z then Some (Z.pos m / 2 ^ (- e))
        else None in
      (fun v => if sign then - v else v) <$> magnitude
  | _ => None
  end.

Fixpoint stringify (v : JsValue) : string :=
  match v with
  | JUndefined => "undefined"
  | JNull => "null"
  | JBool true => "true"
  | JBool false => "false"
  | JNum x => match float_to_Z x with Some n => Z_toString n | None => "null" end
  | JStr s => quote s
  | JArr items =>
      "[" +:+ (fix elements (l : list JsValue) : string :=
                 match l with
                 | [] => ""
                 | [x] => stringify x
                 | x :: rest => stringify x +:+ "," +:+ elements rest
                 end) items +:+ "]"
  | JObj props =>
      "{" +:+ (fix members (l : list (string * JsValue)) : string :=
                 match l with
                 | [] => ""
                 | [(k, x)] => quote k +:+ ":" +:+ stringify x
                 | (k, x) :: rest => quote k +:+ ":" +:+ stringify x +:+ "," +:+ members rest
                 end) props +:+ "}"
  end.

Definition digit_value (c : ascii) : option Z :=
  let n := N_of_ascii c in
  if ((48 <=? n) && (n <=? 57))%N then Some (Z.of_N n - 48) else None.

Fixpoint digits_value (acc : Z) (s : string) : option Z :=
  match s with
  | EmptyString => Some acc
  | String c rest =>
      match digit_value c with
      | Some d => digits_value (10 * acc + d) rest
      | None => None
      end
  end.

(** [BigInt] on a string of decimal digits. *)
Definition bigint_of (v : JsValue) : Outcome Z :=
  match v with
  | JStr s =>
      match digits_value 0 s with
      | Some n => Ok n
      | None => Throw (MkError "SyntaxError" "Cannot convert to a BigInt")
      end
  | _ => Throw (MkError "TypeError" "Cannot convert to a BigInt")
  end.

(** The requirements of the tests ([tests/client.test.ts]). *)
Definition requirements : JsValue :=
  JObj [("scheme", JStr "exact");
        ("network", JStr "solana-devnet");
        ("payTo", JStr "recipientAddress");
        ("maxAmountRequired", JStr "1000000");
        ("resource", JStr "/api/data")].

Definition paymentPayload : JsValue :=
  JObj [("x402Version", JNum 1);
        ("scheme", JStr "exact");
        ("network", JStr "solana-devnet");
        ("payload", JObj [("from", JStr "senderAddress")])].

Definition payment : JsValue := Client.envelope paymentPayload requirements.

(** The same payload under other embedded requirements. *)
Definition payment_other : JsValue :=
  Client.envelope paymentPayload (JObj [("maxAmountRequired", JStr "1")]).

(** An envelope whose payload is [null]. *)
Definition payment_null_payload : JsValue := Client.envelope JNull requirements.

Definition body402 : JsValue :=
  JObj [("error", JStr "Payment Required");
        ("x402Version", JNum 1);
        ("paymentRequirements", requirements)].

Definition known_values : list JsValue :=
  [payment; payment_other; payment_null_payload; body402;
   JObj [("isValid", JBool true)]; JObj [("isValid", JBool false)]; JObj []].

Definition parse (s : string) : option JsValue :=
  List.find (fun v => String.eqb (stringify v) s) known_values.

#[local] Instance runtime : JsRuntime := {|
  JSON_parse := parse;
  JSON_stringify := stringify;
  BigInt := bigint_of;
  ToString := stringify;
|}.

Definition network_error : JsError := MkError "TypeError" "fetch failed".

Definition response_of (code : Z) (body : JsValue) : Response :=
  {| status := code; json := Ok body |}.

Definition is_clock (e : Event) : bool :=
  match e with EvDateNow => true | _ => false end.

(** A world given by the answers of the network, in order (a network
    failure once they are used up), the readings of the clock, in order
    (the last one repeated), and a constant random byte. *)
Definition world (answers : list (Outcome Response)) (readings : list Z)
    (in_browser : bool) : World :=
  {| net := fun t => default (Throw network_error) (answers !! pred (count is_fetch t));
     clock := fun t => default (List.last readings 0%Z) (readings !! pred (count is_clock t));
     entropy := fun _ _ => Byte.x0a;
     window_defined := in_browser |}.

Definition wallet : Client.WalletAdapter :=
  {| Client.publicKey_toBase58 := "mockPublicKey123" |}.

Definition client_config (limit : option Z) : Client.KovaConfig :=
  {| Client.facilitatorUrl := "https://kova402.com/api/v1";
     Client.network := solana_devnet;
     Client.wallet := wallet;
     Client.maxPaymentAmount := limit |}.

Definition handler : Server.KovaPaymentHandler :=
  Server.new_KovaPaymentHandler
    {| Server.config_facilitatorUrl := "https://kova402.com/api/v1/";
       Server.config_network := solana_devnet;
       Server.config_treasuryAddress := "treasuryAddress" |}.

Definition middleware_config : Server.MiddlewareConfig :=
  {| Server.amount := "1000000";
     Server.resource := Some "/api/data";
     Server.onPaymentVerified := true |}.

(** A request without a payment header, one that carries the envelope
    under [x-payment], and the headers that carry it under [X-PAYMENT]. *)
Definition bare_request : Server.Request :=
  {| Server.headers := ∅; Server.originalUrl := Some "/api/data"; Server.url := None |}.

Definition paying_request : Server.Request :=
  {| Server.headers := {[ "x-payment" := Server.HString (stringify payment) ]};
     Server.originalUrl := Some "/api/data";
     Server.url := None |}.



(** The requirements the middleware builds for these requests. *)
Definition server_requirements : JsValue :=
  Server.createPaymentRequirements handler "1000000" "/api/data" None.

Definition body402_server : JsValue :=
  Server.response_body (Server.create402Response server_requirements).

Definition facilitator_says (isValid : bool) : Outcome Response :=
  Ok (response_of 200 (JObj [("isValid", JBool isValid)])).

Definition served : Response := response_of 200 (JObj []).

(** The network answers 402 with [body402], then 200; the clock reads
    1700000000999 ms, then 1700000001000 ms. *)
Definition paying_world : World :=
  world [Ok (response_of 402 body402); Ok served] [1700000000999; 1700000001000] false.

Definition endpoint : string := "https://api.example.com/data".

End Samples.

(** More inputs on which the definitions evaluate. *)
Module MoreSamples.
Import Samples.

(** A response of the facilitator with an error status and a JSON body. *)
Definition unhealthy : Response :=
  response_of 503 (JObj [("status", JStr "unhealthy")]).

(** Both readings of the clock fall in the second 1700000000. *)
Definition same_second_world : World :=
  world [] [1700000000100; 1700000000900] false.

(** A 402 answer whose body is [null]. *)
Definition null_challenge_world : World :=
  world [Ok (response_of 402 JNull)] [] false.

Definition quiet_config : Server.MiddlewareConfig :=
  {| Server.amount := "1000000";
     Server.resource := None;
     Server.onPaymentVerified := false |}.

(** The paying request, with other requirements embedded in its envelope. *)
Definition other_request : Server.Request :=
  {| Server.headers := {[ "x-payment" := Server.HString (stringify payment_other) ]};
     Server.originalUrl := Some "/api/data";
     Server.url := None |}.

(** The payload the client builds in the paying world, and its envelope. *)
Definition built_payload : JsValue :=
  match (Client.createPaymentPayload paying_world wallet requirements
                                     "solana-devnet" []).1 with
  | Ok v => v
  | Throw _ => JNull
  end.

Definition built_envelope : JsValue := Client.envelope built_payload requirements.






(** The headers of the retry in the paying world. *)
Definition built_Headers : Headers :=
  {[ "x-payment" := stringify built_envelope ]}.

(** The runtime of the samples, its parser knowing that envelope too. *)
#[local] Instance handshake_runtime : JsRuntime := {|
  JSON_parse := fun s =>
    List.find (fun v => String.eqb (stringify v) s) (built_envelope :: known_values);
  JSON_stringify := stringify;
  BigInt := bigint_of;
  ToString := stringify;
|}.

End MoreSamples.

(* ===================================================================== *)
(** ** Headers *)
(* ===================================================================== *)

Section HeaderFacts.

Lemma checked_header_Ok name value key stored :
  checked_header name value = Ok (key, stored) ->
  key = lowercase name /\ stored = normalize_value value /\
  is_ByteString value = true /\ is_header_value (normalize_value value) = true.
Proof.
  unfold checked_header.
  destruct (is_ByteString name) eqn:Hn; [|discriminate].
  destruct (is_ByteString value) eqn:Hv; [|discriminate].
  destruct (is_header_name name); [|discriminate].
  destruct (is_header_value (normalize_value value)) eqn:Hh; [|discriminate].
  cbn. intros [= <- <-]. auto.
Qed.

(** A successful [set] stores the normalized value under the lower-cased
    name and leaves the other names alone. *)
Lemma Headers_set_Ok h name value h' :
  Headers_set h name value = Ok h' ->
  h' = <[lowercase name := normalize_value value]> h.
Proof.
  unfold Headers_set.
  destruct (checked_header name value) as [[key stored]|e] eqn:Hchecked; [|discriminate].
  apply checked_header_Ok in Hchecked as (-> & -> & _).
  now intros [= <-].
Qed.


(** What filling from a record leaves under a name: the values the
    entries give it, joined in order to what was there. *)
Lemma Headers_fill_lookup entries h h' name :
  Headers_fill h entries = Ok h' ->
  h' !! lowercase name = foldl join_value (h !! lowercase name) (values_of entries name).
Proof.
  revert h. induction entries as [|[k v] entries IH]; intros h.
  - cbn. now intros [= <-].
  - cbn [Headers_fill]. unfold Headers_append.
    destruct (checked_header k v) as [[key stored]|e] eqn:Hchecked; [|discriminate].
    apply checked_header_Ok in Hchecked as (-> & -> & _).
    unfold values_of. cbn [List.filter fst snd].
    destruct (String.eqb_spec (lowercase k) (lowercase name)) as [Hsame|Hother].
    + rewrite Hsame. cbn [map foldl snd].
      destruct (h !! lowercase name) as [old|] eqn:Hold; intros Hfill;
        rewrite (IH _ Hfill); unfold Headers in *; rewrite lookup_insert_eq;
        reflexivity.
    + destruct (h !! lowercase k) as [old|]; intros Hfill;
        rewrite (IH _ Hfill); unfold Headers in *;
        rewrite lookup_insert_ne by assumption; reflexivity.
Qed.

(** The headers built from the caller's [init] say what the [init] says. *)
Lemma new_Headers_lookup init h name :
  new_Headers (init_headers_opt init) = Ok h ->
  Headers_get h name = original_header init name.
Proof.
  unfold new_Headers, original_header, Headers_get.
  destruct (init_headers_opt init) as [[h0|entries]|].
  - now intros [= <-].
  - intros Hfill. rewrite (Headers_fill_lookup _ _ _ name Hfill).
    unfold Headers. now rewrite lookup_empty.
  - intros [= <-]. apply lookup_empty.
Qed.

End HeaderFacts.

(* ===================================================================== *)
(** ** The server: extraction, verification, settlement *)
(* ===================================================================== *)

Section ServerFacts.
Context `{RT : JsRuntime} (W : World).
Import Server.

Ltac unfold_effects :=
  unfold global_fetch, fetch_call, response_json, console_error, emit, await,
    try_catch, bind, ret, throw, lift in *.

(** The run of [verifyPayment], outcome by outcome. *)
Lemma verifyPayment_run this payment requirements t :
  verifyPayment W this payment requirements t =
  match facilitator_init payment requirements with
  | Throw e => (Ok false, t ++ [EvConsoleError (Some "Payment verification failed:") e])
  | Ok init =>
      let t1 := t ++ [EvFetch (facilitatorUrl this +:+ "/verify") (Some init)] in
      let failed e := (Ok false, t1 ++ [EvConsoleError (Some "Payment verification failed:") e]) in
      match net W t1 with
      | Throw e => failed e
      | Ok response =>
          match json response with
          | Throw e => failed e
          | Ok result =>
              match js_get result "isValid" with
              | Throw e => failed e
              | Ok isValid => (Ok (strict_eq_true isValid), t1)
              end
          end
      end
  end.
Proof.
  unfold verifyPayment. unfold_effects.
  destruct (facilitator_init payment requirements) as [init|e]; [|reflexivity].
  cbn. destruct (net W _) as [response|e]; [|reflexivity].
  destruct (json response) as [result|e]; [|reflexivity].
  destruct (js_get result "isValid"); reflexivity.
Qed.

(** The run of an awaited [settlePayment]. *)
Lemma settlePayment_run this payment requirements t :
  settlePayment W this payment requirements t =
  match facilitator_init payment requirements with
  | Throw e => (Throw e, t ++ [EvConsoleError (Some "Payment settlement failed:") e])
  | Ok init =>
      let t1 := t ++ [EvFetch (facilitatorUrl this +:+ "/settle") (Some init)] in
      let failed e := (Throw e, t1 ++ [EvConsoleError (Some "Payment settlement failed:") e]) in
      match net W t1 with
      | Throw e => failed e
      | Ok response =>
          match json response with
          | Throw e => failed e
          | Ok result => (Ok result, t1)
          end
      end
  end.
Proof.
  unfold settlePayment, settlePayment_call, settle_catch. unfold_effects.
  destruct (facilitator_init payment requirements) as [init|e]; [|reflexivity].
  cbn. destruct (net W _) as [response|e]; [|reflexivity].
  destruct (json response); reflexivity.
Qed.

Lemma facilitator_init_object payment paymentPayload requirements :
  js_get payment "paymentPayload" = Ok paymentPayload ->
  facilitator_init payment requirements =
  Ok (post_json (JSON_stringify (facilitator_request paymentPayload requirements))).
Proof. intros Hget. unfold facilitator_init. now rewrite Hget. Qed.

Lemma strict_eq_true_iff v : strict_eq_true v = true <-> v = JBool true.
Proof.
  split; [|intros ->; reflexivity].
  destruct v as [| |[|]| | | |]; simpl; congruence.
Qed.

(** [verifyPayment] never throws, whatever it is given. *)
Lemma verifyPayment_total this payment requirements t :
  exists b, (verifyPayment W this payment requirements t).1 = Ok b.
Proof.
  rewrite verifyPayment_run.
  destruct (facilitator_init payment requirements) as [init|e]; [|eauto].
  cbn zeta. destruct (net W _) as [response|e]; [|eauto].
  destruct (json response) as [result|e]; [|eauto].
  destruct (js_get result "isValid"); eauto.
Qed.

(** C2. [verifyPayment] never fails; on an envelope object it answers
    [true] exactly when the facilitator's call returns a response whose
    parsed body has [isValid === true], and [false] when the call throws,
    when the body does not parse, and when [isValid] is anything else. *)
Theorem verifyPayment_fail_closed this payment paymentPayload requirements t :
  js_get payment "paymentPayload" = Ok paymentPayload ->
  let request :=
    EvFetch (facilitatorUrl this +:+ "/verify")
            (Some (post_json (JSON_stringify
                                (facilitator_request paymentPayload requirements)))) in
  let answer := net W (t ++ [request]) in
  let result := (verifyPayment W this payment requirements t).1 in
  (exists b, result = Ok b) /\
  (result = Ok true <->
     exists response body,
       answer = Ok response /\ json response = Ok body /\
       js_get body "isValid" = Ok (JBool true)) /\
  (forall e, answer = Throw e -> result = Ok false) /\
  (forall response e, answer = Ok response -> json response = Throw e ->
                      result = Ok false) /\
  (forall response body,
      answer = Ok response -> json response = Ok body ->
      js_get body "isValid" <> Ok (JBool true) -> result = Ok false).
Proof.
  intros Hget request answer result.
  subst result answer request.
  rewrite verifyPayment_run, (facilitator_init_object _ _ _ Hget). cbn zeta.
  destruct (net W _) as [response|e0].
  - destruct (json response) as [body|e1] eqn:Hjson.
    + destruct (js_get body "isValid") as [isValid|e2] eqn:Hvalid; cbn.
      * split; [eauto|]. split; [split|]; [| |split; [|split]].
        -- intros [= Htrue]. apply strict_eq_true_iff in Htrue. subst.
           exists response, body. auto.
        -- intros (r & b & [= <-] & Hb & Hv).
           rewrite Hjson in Hb. injection Hb as <-. rewrite Hvalid in Hv.
           injection Hv as ->. reflexivity.
        -- discriminate.
        -- intros r e [= <-] Hb. congruence.
        -- intros r b [= <-] Hb Hv. rewrite Hjson in Hb. injection Hb as <-.
           rewrite Hvalid in Hv. f_equal.
           destruct (strict_eq_true isValid) eqn:Hs; [|reflexivity].
           apply strict_eq_true_iff in Hs. congruence.
      * split; [eauto|]. split; [split|]; [| |split; [|split]]; try discriminate; auto.
        intros (r & b & [= <-] & Hb & Hv). rewrite Hjson in Hb.
        injection Hb as <-. congruence.
    + cbn. split; [eauto|]. split; [split|]; [| |split; [|split]]; try discriminate; auto.
      intros (r & b & [= <-] & Hb & _). congruence.
  - cbn. split; [eauto|]. split; [split|]; [| |split; [|split]]; try discriminate; auto.
    intros (r & b & Hr & _). discriminate.
Qed.

(** C8. On an envelope object [settlePayment] lets the failure of the
    facilitator's call through to its caller, after logging it: the
    network failure and the unparseable body alike; on success it returns
    the parsed body. [verifyPayment] maps the same failures to [false]. *)
Theorem settlePayment_propagates this payment paymentPayload requirements t :
  js_get payment "paymentPayload" = Ok paymentPayload ->
  let init :=
    Some (post_json (JSON_stringify (facilitator_request paymentPayload requirements))) in
  let t1 := t ++ [EvFetch (facilitatorUrl this +:+ "/settle") init] in
  let logged e := t1 ++ [EvConsoleError (Some "Payment settlement failed:") e] in
  (forall e, net W t1 = Throw e ->
             settlePayment W this payment requirements t = (Throw e, logged e)) /\
  (forall response e,
      net W t1 = Ok response -> json response = Throw e ->
      settlePayment W this payment requirements t = (Throw e, logged e)) /\
  (forall response result,
      net W t1 = Ok response -> json response = Ok result ->
      settlePayment W this payment requirements t = (Ok result, t1)) /\
  (forall e, net W (t ++ [EvFetch (facilitatorUrl this +:+ "/verify") init]) = Throw e ->
             (verifyPayment W this payment requirements t).1 = Ok false) /\
  (forall response e,
      net W (t ++ [EvFetch (facilitatorUrl this +:+ "/verify") init]) = Ok response ->
      json response = Throw e ->
      (verifyPayment W this payment requirements t).1 = Ok false).
Proof.
  intros Hget init t1 logged. subst init t1 logged.
  rewrite settlePayment_run, verifyPayment_run, (facilitator_init_object _ _ _ Hget).
  cbn zeta.
  repeat split.
  - intros e ->. reflexivity.
  - intros response e -> ->. reflexivity.
  - intros response result -> ->. reflexivity.
  - intros e ->. reflexivity.
  - intros response e -> ->. reflexivity.
Qed.

(** C10. The two facilitator calls read only [paymentPayload] from the
    envelope: two envelopes with the same payload, whatever requirements
    they embed, give the same POST body, the same trace and the same
    result; the requirements sent are the ones passed as argument. *)
Theorem facilitator_calls_ignore_embedded_requirements
    this payment1 payment2 paymentPayload requirements t :
  js_get payment1 "paymentPayload" = Ok paymentPayload ->
  js_get payment2 "paymentPayload" = Ok paymentPayload ->
  facilitator_init payment1 requirements =
    Ok (post_json (JSON_stringify (facilitator_request paymentPayload requirements))) /\
  facilitator_init payment1 requirements = facilitator_init payment2 requirements /\
  verifyPayment W this payment1 requirements t =
    verifyPayment W this payment2 requirements t /\
  settlePayment W this payment1 requirements t =
    settlePayment W this payment2 requirements t.
Proof.
  intros H1 H2.
  assert (Hinit : facilitator_init payment1 requirements =
                  facilitator_init payment2 requirements).
  { now rewrite (facilitator_init_object _ _ _ H1), (facilitator_init_object _ _ _ H2). }
  repeat split.
  - now apply facilitator_init_object.
  - exact Hinit.
  - now rewrite !verifyPayment_run, Hinit.
  - now rewrite !settlePayment_run, Hinit.
Qed.

(** What [extractPayment] returns is a parsed value with a truthy
    [paymentPayload] and a truthy [paymentRequirements]. *)
Lemma extractPayment_Some headers parsed :
  extractPayment headers = Some parsed <->
  exists s paymentPayload paymentRequirements,
    paymentHeader_of headers = Some s /\ s <> "" /\ JSON_parse s = Some parsed /\
    js_get parsed "paymentPayload" = Ok paymentPayload /\ truthy paymentPayload = true /\
    js_get parsed "paymentRequirements" = Ok paymentRequirements /\
    truthy paymentRequirements = true.
Proof.
  unfold extractPayment, parse_envelope. split.
  - destruct (paymentHeader_of headers) as [s|]; [|discriminate].
    destruct (String.eqb s "") eqn:Hs; [discriminate|].
    apply String.eqb_neq in Hs.
    destruct (JSON_parse s) as [v|] eqn:Hparse; [|discriminate].
    destruct (js_get v "paymentPayload") as [pp|] eqn:Hpp; [|discriminate].
    destruct (truthy pp) eqn:Tpp; [|discriminate]. cbn.
    destruct (js_get v "paymentRequirements") as [pr|] eqn:Hpr; [|discriminate].
    destruct (truthy pr) eqn:Tpr; [|discriminate]. cbn.
    intros [= <-]. exists s, pp, pr. repeat split; assumption.
  - intros (s & pp & pr & -> & Hs & -> & -> & -> & -> & ->).
    apply String.eqb_neq in Hs. now rewrite Hs.
Qed.


Lemma verify_is_not_settle base :
  String.eqb (base +:+ "/verify") (base +:+ "/settle") = false.
Proof.
  induction base as [|c base IH]; [reflexivity|].
  apply String.eqb_neq in IH. apply String.eqb_neq.
  simpl. intros [= Heq]. contradiction.
Qed.

Lemma count_app kind (t1 t2 : Trace) : count kind (t1 ++ t2) = (count kind t1 + count kind t2)%nat.
Proof. unfold count. now rewrite List.filter_app, length_app. Qed.

Lemma settle_aftermath_logs_only answer kind :
  (forall label e, kind (EvConsoleError label e) = false) ->
  count kind (settle_aftermath answer) = 0%nat.
Proof.
  intros Hkind. unfold settle_aftermath, count.
  destruct answer as [response|e]; [destruct (json response)|]; cbn;
    rewrite ?Hkind; reflexivity.
Qed.

(** The part of the middleware after a successful verification. *)
Lemma settle_in_background this payment requirements init t :
  facilitator_init payment requirements = Ok init ->
  (let! settling := settlePayment_call W this payment requirements in
   do! emit EvNext in
   detached (promise_catch settling
               (fun e => do! console_error None e in ret JUndefined))) t =
  (Ok tt,
   t ++ [EvFetch (facilitatorUrl this +:+ "/settle") (Some init); EvNext]
     ++ settle_aftermath (net W (t ++ [EvFetch (facilitatorUrl this +:+ "/settle") (Some init)]))).
Proof.
  intros Hinit. unfold settlePayment_call, settle_catch, detached, promise_catch.
  rewrite Hinit. unfold_effects. cbn. unfold settle_aftermath.
  destruct (net W _) as [response|e]; [destruct (json response)|]; cbn;
    rewrite <- ?app_assoc; reflexivity.
Qed.

(** C1. The middleware: without a payment it answers 402 with the
    requirements and does not call [next]; with a payment that fails
    verification it answers 402 with the generic body, which differs from
    the former, and does not call [next]; with a payment that passes it
    invokes the callback if there is one, issues the one settlement
    request, calls [next] once and at once, and whatever the settlement
    does comes after. *)
Theorem middleware_spec this config req t :
  let requirements :=
    createPaymentRequirements this (amount config)
      (or_else (resource config) (or_else (originalUrl req) (or_else (url req) "/")))
      None in
  let verify_url := facilitatorUrl this +:+ "/verify" in
  let settle_url := facilitatorUrl this +:+ "/settle" in
  let invalid := JObj [("error", JStr "Invalid payment")] in
  (extractPayment (ArgRecord (headers req)) = None ->
   let added := [EvRespond 402 (response_body (create402Response requirements))] in
   middleware W this config req t = (Ok tt, t ++ added) /\
   count is_next added = 0%nat) /\
  (forall payment,
      extractPayment (ArgRecord (headers req)) = Some payment ->
      (verifyPayment W this payment requirements t).1 = Ok false ->
      exists init logs,
        facilitator_init payment requirements = Ok init /\
        (logs = [] \/
         exists e, logs = [EvConsoleError (Some "Payment verification failed:") e]) /\
        let added := [EvFetch verify_url (Some init)] ++ logs ++ [EvRespond 402 invalid] in
        middleware W this config req t = (Ok tt, t ++ added) /\
        count is_next added = 0%nat /\
        invalid <> response_body (create402Response requirements)) /\
  (forall payment,
      extractPayment (ArgRecord (headers req)) = Some payment ->
      (verifyPayment W this payment requirements t).1 = Ok true ->
      exists init,
        facilitator_init payment requirements = Ok init /\
        let callback := if onPaymentVerified config then [EvCallback payment] else [] in
        let issued := [EvFetch verify_url (Some init)] ++ callback
                        ++ [EvFetch settle_url (Some init)] in
        let added := issued ++ [EvNext] ++ settle_aftermath (net W (t ++ issued)) in
        middleware W this config req t = (Ok tt, t ++ added) /\
        count is_next added = 1%nat /\
        count (is_fetch_to settle_url) added = 1%nat /\
        count is_respond added = 0%nat).
Proof.
  intros requirements verify_url settle_url invalid.
  split; [|split].
  - intros Hnone. unfold middleware. rewrite Hnone. split; reflexivity.
  - intros payment Hsome Hverify.
    destruct (proj1 (extractPayment_Some _ _) Hsome)
      as (s & pp & pr & _ & _ & _ & Hpp & _).
    pose proof (facilitator_init_object _ _ requirements Hpp) as Hinit.
    unfold middleware. rewrite Hsome. fold requirements.
    unfold bind at 1. rewrite verifyPayment_run in Hverify |- *.
    rewrite Hinit in Hverify |- *. cbn zeta in Hverify |- *.
    fold verify_url in Hverify |- *.
    set (init := post_json _) in *.
    assert (Hfail : forall e,
               exists logs,
                 (logs = [] \/
                  exists e, logs = [EvConsoleError (Some "Payment verification failed:") e]) /\
                 res_status_json 402 invalid
                   ((t ++ [EvFetch verify_url (Some init)]) ++
                    [EvConsoleError (Some "Payment verification failed:") e]) =
                 (Ok tt, t ++ [EvFetch verify_url (Some init)] ++ logs ++ [EvRespond 402 invalid]) /\
                 count is_next ([EvFetch verify_url (Some init)] ++ logs ++ [EvRespond 402 invalid]) = 0%nat).
    { intros e. eexists. split; [right; eauto|]. split; [|reflexivity].
      unfold res_status_json, emit. now rewrite <- !app_assoc. }
    exists init.
    destruct (net W _) as [response|e0].
    + destruct (json response) as [result|e1].
      * destruct (js_get result "isValid") as [isValid|e2].
        -- cbn in Hverify. injection Hverify as Hverify. rewrite Hverify. cbn [negb].
           exists []. split; [reflexivity|]. split; [now left|].
           split; [|split; [reflexivity|discriminate]].
           unfold res_status_json, emit. now rewrite <- !app_assoc.
        -- destruct (Hfail e2) as (logs & Hlogs & Hrun & Hcount).
           exists logs. cbn [negb]. repeat split; try assumption; discriminate.
      * destruct (Hfail e1) as (logs & Hlogs & Hrun & Hcount).
        exists logs. cbn [negb]. repeat split; try assumption; discriminate.
    + destruct (Hfail e0) as (logs & Hlogs & Hrun & Hcount).
      exists logs. cbn [negb]. repeat split; try assumption; discriminate.
  - intros payment Hsome Hverify.
    destruct (proj1 (extractPayment_Some _ _) Hsome)
      as (s & pp & pr & _ & _ & _ & Hpp & _).
    pose proof (facilitator_init_object _ _ requirements Hpp) as Hinit.
    unfold middleware. rewrite Hsome. fold requirements.
    unfold bind at 1. rewrite verifyPayment_run in Hverify |- *.
    rewrite Hinit in Hverify |- *. cbn zeta in Hverify |- *.
    fold verify_url in Hverify |- *.
    set (init := post_json _) in *.
    exists init. split; [reflexivity|].
    destruct (net W _) as [response|e0]; [|discriminate].
    destruct (json response) as [result|e1]; [|discriminate].
    destruct (js_get result "isValid") as [isValid|e2]; [|discriminate].
    cbn in Hverify. injection Hverify as Hverify. rewrite Hverify. cbn [negb].
    cbn zeta. split; [|split; [|split]].
    + unfold bind at 1.
      destruct (onPaymentVerified config); unfold emit at 1, ret at 1;
        rewrite (settle_in_background _ _ _ init _ Hinit);
        fold settle_url; rewrite <- !app_assoc; reflexivity.
    + rewrite !count_app, settle_aftermath_logs_only by reflexivity.
      destruct (onPaymentVerified config); reflexivity.
    + rewrite !count_app, settle_aftermath_logs_only by reflexivity.
      unfold count. cbn. unfold verify_url, settle_url.
      rewrite verify_is_not_settle, String.eqb_refl.
      destruct (onPaymentVerified config); reflexivity.
    + rewrite !count_app, settle_aftermath_logs_only by reflexivity.
      destruct (onPaymentVerified config); reflexivity.
Qed.

End ServerFacts.

(* ===================================================================== *)
(** ** The client: pass-through, ceiling, payload and retry *)
(* ===================================================================== *)

Section ClientFacts.
Context `{RT : JsRuntime} (W : World).
Import Client.

Ltac unfold_effects :=
  unfold global_fetch, fetch_call, response_json, Date_now, randomBytes,
    crypto_getRandomValues, emit, await, bind, ret, throw, lift in *.

Lemma js_get_not_nullish v key :
  is_nullish v = false -> exists x, js_get v key = Ok x.
Proof. destruct v; cbn; try discriminate; eauto. Qed.

Lemma browser_hex_is_buffer_hex bytes :
  join_empty (map (fun b => padStart (byte_toString16 b) 2 "0") bytes) =
  Buffer_toString_hex bytes.
Proof.
  unfold Buffer_toString_hex. induction bytes as [|b bytes IH]; [reflexivity|].
  cbn [map join_empty foldr]. unfold join_empty in IH. rewrite IH. f_equal.
  destruct b; reflexivity.
Qed.

Lemma length_append (a b : string) :
  String.length (a +:+ b) = (String.length a + String.length b)%nat.
Proof. induction a as [|c a IH]; simpl; [reflexivity|now f_equal]. Qed.

Lemma Buffer_toString_hex_length bytes :
  String.length (Buffer_toString_hex bytes) = (2 * length bytes)%nat.
Proof.
  unfold Buffer_toString_hex. induction bytes as [|b bytes IH]; [reflexivity|].
  cbn [map join_empty foldr length]. unfold join_empty in IH.
  rewrite length_append, IH. cbn. lia.
Qed.

(** Both branches of [generateNonce] give the prefixed hexadecimal form
    of the 32 random bytes. *)
Lemma generateNonce_run t :
  generateNonce W t =
  (Ok ("0x" +:+ Buffer_toString_hex (random32 W (t ++ [random_event W]))),
   t ++ [random_event W]).
Proof.
  unfold generateNonce, random_event, random32.
  destruct (window_defined W); unfold_effects; cbn [negb].
  - now rewrite browser_hex_is_buffer_hex.
  - reflexivity.
Qed.

Lemma nonce_length t :
  String.length ("0x" +:+ Buffer_toString_hex (random32 W t)) = 66%nat.
Proof.
  rewrite length_append, Buffer_toString_hex_length.
  unfold random32. now rewrite length_map, length_seq.
Qed.

(** The run of [createPaymentPayload] on requirements that are an object:
    every field of the payload, and the events. *)
Lemma createPaymentPayload_run wallet requirements network t to value scheme :
  js_get requirements "payTo" = Ok to ->
  js_get requirements "maxAmountRequired" = Ok value ->
  js_get requirements "scheme" = Ok scheme ->
  createPaymentPayload W wallet requirements network t =
  (Ok (JObj [("x402Version", JNum 1);
             ("scheme", scheme);
             ("network", JStr network);
             ("payload",
              JObj [("from", JStr (publicKey_toBase58 wallet));
                    ("to", to);
                    ("value", value);
                    ("validAfter",
                     JStr (Z_toString (clock W (t ++ [EvWallet; EvDateNow]) / 1000)));
                    ("validBefore",
                     JStr (Z_toString
                             (clock W (t ++ [EvWallet; EvDateNow; EvDateNow]) / 1000 + 3600)));
                    ("nonce",
                     JStr ("0x" +:+ Buffer_toString_hex
                                      (random32 W (t ++ payload_events W))));
                    ("v", JStr "0x00");
                    ("r", JStr ("0x" +:+ String_repeat "0" 64));
                    ("s", JStr ("0x" +:+ String_repeat "0" 64))])]),
   t ++ payload_events W).
Proof.
  intros Hto Hvalue Hscheme. unfold createPaymentPayload.
  rewrite Hto, Hvalue, Hscheme. unfold bind at 1 2 3 4 5. unfold lift at 1 2.
  unfold Date_now at 1 2. cbn beta iota zeta.
  unfold bind. rewrite generateNonce_run. unfold lift, ret, payload_events.
  rewrite <- !app_assoc. reflexivity.
Qed.

Lemma check_limit_skipped limit requirements t :
  limit = None \/ limit = Some 0 -> check_limit limit requirements t = (Ok tt, t).
Proof. intros [-> | ->]; reflexivity. Qed.


Lemma check_limit_over limit requirements amount requested t :
  limit <> 0 -> js_get requirements "maxAmountRequired" = Ok amount ->
  BigInt amount = Ok requested -> requested > limit ->
  check_limit (Some limit) requirements t =
  (Throw (new_Error (limit_message amount limit)), t).
Proof.
  intros Hnz Hamount Hbig Hgt. unfold check_limit.
  destruct (Z.eqb_spec limit 0) as [|_]; [contradiction|].
  rewrite Hamount. unfold bind, lift. rewrite Hbig.
  destruct (requested >? limit)%Z eqn:Hgtb; [reflexivity|lia].
Qed.

(** The run of the client's [fetch] on a 402 answer, up to the ceiling
    check. *)
Lemma fetch_402_run config input init t response body requirements :
  net W (t ++ [EvFetch input init]) = Ok response -> status response = 402 ->
  json response = Ok body -> js_get body "paymentRequirements" = Ok requirements ->
  fetch W config input init t =
  (do! check_limit (maxPaymentAmount config) requirements in
   let! paymentPayload :=
     createPaymentPayload W (wallet config) requirements
                          (network_name (network config)) in
   let! headersWithPayment := lift (payment_headers init paymentPayload requirements) in
   global_fetch W input (Some (init_with_headers init headersWithPayment)))
    (t ++ [EvFetch input init]).
Proof.
  intros Hnet Hstatus Hjson Hreq. unfold fetch.
  unfold bind at 1. unfold global_fetch at 1, fetch_call at 1, bind at 1, await, lift at 1.
  rewrite Hnet, Hstatus. cbn [Z.eqb Pos.eqb].
  unfold bind at 1. unfold response_json, lift at 1. rewrite Hjson.
  unfold bind at 1. unfold lift at 1. rewrite Hreq. reflexivity.
Qed.


(** X15. Above a ceiling other than zero, [fetch] throws the error that names
    the amount and the ceiling, right after the first response. *)
Lemma fetch_rejects_over_limit config input init t response body requirements
    limit amount requested :
  let t1 := t ++ [EvFetch input init] in
  net W t1 = Ok response -> status response = 402 ->
  json response = Ok body -> js_get body "paymentRequirements" = Ok requirements ->
  maxPaymentAmount config = Some limit -> limit <> 0 ->
  js_get requirements "maxAmountRequired" = Ok amount ->
  BigInt amount = Ok requested -> requested > limit ->
  fetch W config input init t =
  (Throw (new_Error ("Payment amount " +:+ template amount +:+ " exceeds maximum "
                       +:+ Z_toString limit)), t1).
Proof.
  intros t1 Hnet Hstatus Hjson Hreq Hlimit Hnz Hamount Hbig Hgt.
  rewrite (fetch_402_run config input init t response body requirements)
    by assumption.
  fold t1. unfold bind at 1.
  rewrite Hlimit, (check_limit_over limit requirements amount requested t1)
    by assumption.
  reflexivity.
Qed.

(** C5. A response whose status is not 402 is returned as it came, after
    the one network call: no wallet call, no clock or random read, no
    second request. *)
Theorem fetch_passes_through config input init t response :
  net W (t ++ [EvFetch input init]) = Ok response ->
  status response <> 402 ->
  fetch W config input init t = (Ok response, t ++ [EvFetch input init]) /\
  count is_fetch [EvFetch input init] = 1%nat /\
  count is_wallet [EvFetch input init] = 0%nat.
Proof.
  intros Hnet Hstatus. split; [|split; reflexivity].
  unfold fetch. unfold bind at 1.
  unfold global_fetch at 1, fetch_call at 1, bind at 1, await, lift at 1.
  rewrite Hnet. destruct (Z.eqb_spec (status response) 402) as [|_]; [contradiction|].
  reflexivity.
Qed.

Lemma count_payload_events kind :
  kind EvWallet = false -> kind EvDateNow = false ->
  (forall n, kind (EvRandomBytes n) = false) ->
  (forall n, kind (EvGetRandomValues n) = false) ->
  count kind (payload_events W) = 0%nat.
Proof.
  intros Hw Hd Hr Hg. unfold count, payload_events, random_event. cbn.
  rewrite Hw, Hd. destruct (negb (window_defined W)); now rewrite ?Hr, ?Hg.
Qed.


(** The headers of the retry: the envelope under [X-Payment], the caller's
    own headers under every other name. *)
Lemma payment_headers_Ok init paymentPayload requirements h :
  payment_headers init paymentPayload requirements = Ok h ->
  Headers_get h "X-Payment" =
    Some (normalize_value (JSON_stringify (envelope paymentPayload requirements))) /\
  forall name, lowercase name <> lowercase "X-Payment" ->
               Headers_get h name = original_header init name.
Proof.
  unfold payment_headers.
  destruct (new_Headers (init_headers_opt init)) as [h0|e] eqn:Hnew; [|discriminate].
  intros Hset. apply Headers_set_Ok in Hset as ->. split.
  - unfold Headers_get. apply lookup_insert_eq.
  - intros name Hname. rewrite <- (new_Headers_lookup init h0 name Hnew).
    unfold Headers_get. apply lookup_insert_ne. congruence.
Qed.



(** X2. The payload the client builds for a requirements object: sender,
    recipient, value, the two ends of the validity window (each from its
    own reading of the clock), the nonce and the placeholder signature. *)
Lemma createPaymentPayload_fields wallet requirements network t :
  is_nullish requirements = false ->
  exists to value scheme payload nonce,
    js_get requirements "payTo" = Ok to /\
    js_get requirements "maxAmountRequired" = Ok value /\
    js_get requirements "scheme" = Ok scheme /\
    createPaymentPayload W wallet requirements network t =
      (Ok (JObj [("x402Version", JNum 1); ("scheme", scheme);
                 ("network", JStr network); ("payload", payload)]),
       t ++ payload_events W) /\
    js_get payload "from" = Ok (JStr (publicKey_toBase58 wallet)) /\
    js_get payload "to" = Ok to /\
    js_get payload "value" = Ok value /\
    js_get payload "validAfter" =
      Ok (JStr (Z_toString (clock W (t ++ [EvWallet; EvDateNow]) / 1000))) /\
    js_get payload "validBefore" =
      Ok (JStr (Z_toString (clock W (t ++ [EvWallet; EvDateNow; EvDateNow]) / 1000 + 3600))) /\
    js_get payload "nonce" = Ok (JStr nonce) /\
    nonce = "0x" +:+ Buffer_toString_hex (random32 W (t ++ payload_events W)) /\
    String.length nonce = 66%nat /\
    js_get payload "v" = Ok (JStr "0x00") /\
    js_get payload "r" =
      Ok (JStr "0x0000000000000000000000000000000000000000000000000000000000000000") /\
    js_get payload "s" =
      Ok (JStr "0x0000000000000000000000000000000000000000000000000000000000000000").
Proof.
  intros Hobj.
  destruct (js_get_not_nullish requirements "payTo" Hobj) as [to Hto].
  destruct (js_get_not_nullish requirements "maxAmountRequired" Hobj) as [value Hvalue].
  destruct (js_get_not_nullish requirements "scheme" Hobj) as [scheme Hscheme].
  exists to, value, scheme. eexists. eexists.
  split; [exact Hto|]. split; [exact Hvalue|]. split; [exact Hscheme|].
  split; [apply (createPaymentPayload_run _ _ _ _ to value scheme); assumption|].
  repeat match goal with |- _ /\ _ => split end;
    first [apply nonce_length | reflexivity].
Qed.

End ClientFacts.

(* ===================================================================== *)
(** ** Concrete runs *)
(* ===================================================================== *)

Section ConcreteRuns.
Import Samples.


(** C4, at a ceiling of zero: the 402 answer asks for 1000000, which
    exceeds the ceiling, and [fetch] does not fail: it asks the wallet,
    retries and returns the second response. *)
Theorem fetch_zero_ceiling_not_enforced :
  Client.maxPaymentAmount (client_config (Some 0)) = Some 0 /\
  js_get body402 "paymentRequirements" = Ok requirements /\
  js_get requirements "maxAmountRequired" = Ok (JStr "1000000") /\
  bigint_of (JStr "1000000") = Ok 1000000 /\
  1000000 > 0 /\
  (Client.fetch (RT := runtime) paying_world (client_config (Some 0)) endpoint None []).1
    = Ok served /\
  count is_fetch
    (Client.fetch (RT := runtime) paying_world (client_config (Some 0)) endpoint None []).2
    = 2%nat /\
  count is_wallet
    (Client.fetch (RT := runtime) paying_world (client_config (Some 0)) endpoint None []).2
    = 1%nat.
Proof. repeat split; vm_compute; reflexivity. Qed.

(** C7, when the second reading of the clock falls in the next second:
    the window of the payload is 3601 seconds. *)
Theorem createPaymentPayload_window_over_one_hour :
  clock paying_world [EvWallet; EvDateNow] = 1700000000999 /\
  clock paying_world [EvWallet; EvDateNow; EvDateNow] = 1700000001000 /\
  exists payload inner,
    (Client.createPaymentPayload paying_world wallet requirements "solana-devnet" []).1
      = Ok payload /\
    js_get payload "payload" = Ok inner /\
    js_get inner "validAfter" = Ok (JStr "1700000000") /\
    js_get inner "validBefore" = Ok (JStr "1700003601") /\
    1700003601 - 1700000000 = 3601.
Proof.
  split; [reflexivity|]. split; [reflexivity|].
  eexists. eexists. split; [vm_compute; reflexivity|].
  split; [vm_compute; reflexivity|]. repeat split; vm_compute; reflexivity.
Qed.

(** [middleware_spec] on the three requests of the samples: no header; a
    header the facilitator refuses; a header it accepts, with a settlement
    that fails on the network. *)
Lemma middleware_spec_witness :
  Server.extractPayment (RT := runtime) (Server.ArgRecord (Server.headers bare_request))
    = None /\
  Server.middleware (RT := runtime) (world [] [] false) handler middleware_config
                    bare_request []
    = (Ok tt, [EvRespond 402 body402_server]) /\
  Server.extractPayment (RT := runtime) (Server.ArgRecord (Server.headers paying_request))
    = Some payment /\
  (Server.verifyPayment (RT := runtime) (world [facilitator_says false] [] false) handler
                        payment server_requirements []).1 = Ok false /\
  count is_next
    (Server.middleware (RT := runtime) (world [facilitator_says false] [] false) handler
                       middleware_config paying_request []).2 = 0%nat /\
  (Server.verifyPayment (RT := runtime)
                        (world [facilitator_says true; Throw network_error] [] false)
                        handler payment server_requirements []).1 = Ok true /\
  count is_next
    (Server.middleware (RT := runtime)
                       (world [facilitator_says true; Throw network_error] [] false)
                       handler middleware_config paying_request []).2 = 1%nat.
Proof.
  split; [reflexivity|]. split.
  { apply (proj1 (middleware_spec (RT := runtime) (world [] [] false) handler
                    middleware_config bare_request [])).
    reflexivity. }
  split; [vm_compute; reflexivity|]. split; [vm_compute; reflexivity|]. split.
  { destruct (proj1 (proj2 (middleware_spec (RT := runtime)
                              (world [facilitator_says false] [] false) handler
                              middleware_config paying_request []))
                payment ltac:(vm_compute; reflexivity) ltac:(vm_compute; reflexivity))
      as (init & logs & _ & _ & Hrun & Hnext & _).
    rewrite Hrun. exact Hnext. }
  split; [vm_compute; reflexivity|].
  destruct (proj2 (proj2 (middleware_spec (RT := runtime)
                            (world [facilitator_says true; Throw network_error] [] false)
                            handler middleware_config paying_request []))
              payment ltac:(vm_compute; reflexivity) ltac:(vm_compute; reflexivity))
    as (init & _ & Hrun & Hnext & _).
  rewrite Hrun. exact Hnext.
Defined.

(** [verifyPayment_fail_closed] when the facilitator says valid, when the
    network fails, and when the body has no [isValid]. *)
Lemma verifyPayment_fail_closed_witness :
  js_get payment "paymentPayload" = Ok paymentPayload /\
  (Server.verifyPayment (RT := runtime) (world [facilitator_says true] [] false) handler
                        payment server_requirements []).1 = Ok true /\
  (Server.verifyPayment (RT := runtime) (world [] [] false) handler
                        payment server_requirements []).1 = Ok false /\
  (Server.verifyPayment (RT := runtime) (world [Ok served] [] false) handler
                        payment server_requirements []).1 = Ok false.
Proof.
  split; [reflexivity|]. split; [|split].
  - apply (proj1 (proj2 (verifyPayment_fail_closed (RT := runtime)
                           (world [facilitator_says true] [] false) handler payment
                           paymentPayload server_requirements [] eq_refl))).
    exists (response_of 200 (JObj [("isValid", JBool true)])), (JObj [("isValid", JBool true)]).
    repeat split; vm_compute; reflexivity.
  - apply (proj1 (proj2 (proj2 (verifyPayment_fail_closed (RT := runtime)
                                  (world [] [] false) handler payment
                                  paymentPayload server_requirements [] eq_refl)))
             network_error).
    vm_compute; reflexivity.
  - apply (proj2 (proj2 (proj2 (proj2 (verifyPayment_fail_closed (RT := runtime)
                                         (world [Ok served] [] false) handler payment
                                         paymentPayload server_requirements [] eq_refl))))
             served (JObj [])).
    + vm_compute; reflexivity.
    + reflexivity.
    + vm_compute. discriminate.
Defined.


(** [settlePayment_propagates] when the network fails and when the
    facilitator answers. *)
Lemma settlePayment_propagates_witness :
  js_get payment "paymentPayload" = Ok paymentPayload /\
  (Server.settlePayment (RT := runtime) (world [] [] false) handler
                        payment server_requirements []).1 = Throw network_error /\
  (Server.settlePayment (RT := runtime) (world [Ok served] [] false) handler
                        payment server_requirements []).1 = Ok (JObj []).
Proof.
  split; [reflexivity|]. split.
  - rewrite (proj1 (settlePayment_propagates (RT := runtime) (world [] [] false) handler
                      payment paymentPayload server_requirements [] eq_refl)
               network_error);
      vm_compute; reflexivity.
  - rewrite (proj1 (proj2 (proj2 (settlePayment_propagates (RT := runtime)
                                    (world [Ok served] [] false) handler
                                    payment paymentPayload server_requirements [] eq_refl)))
               served (JObj []));
      vm_compute; reflexivity.
Defined.

(** [facilitator_calls_ignore_embedded_requirements] on two envelopes that
    embed different requirements around the same payload. *)
Lemma facilitator_calls_ignore_embedded_requirements_witness :
  js_get payment "paymentPayload" = Ok paymentPayload /\
  js_get payment_other "paymentPayload" = Ok paymentPayload /\
  js_get payment "paymentRequirements" <> js_get payment_other "paymentRequirements" /\
  Server.verifyPayment (RT := runtime) (world [facilitator_says true] [] false) handler
                       payment server_requirements [] =
  Server.verifyPayment (RT := runtime) (world [facilitator_says true] [] false) handler
                       payment_other server_requirements [].
Proof.
  split; [reflexivity|]. split; [reflexivity|]. split; [vm_compute; discriminate|].
  apply (facilitator_calls_ignore_embedded_requirements (RT := runtime)
           (world [facilitator_says true] [] false) handler payment payment_other
           paymentPayload server_requirements [] eq_refl eq_refl).
Defined.

(** [fetch_passes_through] on a 200 answer. *)
Lemma fetch_passes_through_witness :
  net (world [Ok served] [] false) [EvFetch endpoint None] = Ok served /\
  status served <> 402 /\
  Client.fetch (RT := runtime) (world [Ok served] [] false) (client_config None)
               endpoint None [] = (Ok served, [EvFetch endpoint None]).
Proof.
  split; [reflexivity|]. split; [discriminate|].
  apply (fetch_passes_through (RT := runtime) (world [Ok served] [] false)
           (client_config None) endpoint None [] served).
  - reflexivity.
  - discriminate.
Defined.




End ConcreteRuns.

(* ===================================================================== *)
(** ** The client: edges, bounds and the facilitator queries *)
(* ===================================================================== *)

Section ClientEdges.
Context `{RT : JsRuntime} (W : World).
Import Client.

Lemma check_limit_trace limit requirements t :
  (check_limit limit requirements t).2 = t.
Proof.
  unfold check_limit. destruct limit as [limit|]; [|reflexivity].
  destruct (limit =? 0)%Z; [reflexivity|].
  unfold bind, lift, ret, throw.
  destruct (js_get requirements "maxAmountRequired"); [|reflexivity].
  destruct (BigInt a) as [requested|]; [|reflexivity].
  destruct (requested >? limit)%Z; reflexivity.
Qed.

Lemma js_get_nullish v key :
  is_nullish v = true -> js_get v key = Throw (TypeError_property key).
Proof. destruct v; cbn; try discriminate; reflexivity. Qed.

(** The payload is an object, hence truthy. *)
Lemma createPaymentPayload_truthy wallet requirements network t paymentPayload t' :
  createPaymentPayload W wallet requirements network t = (Ok paymentPayload, t') ->
  truthy paymentPayload = true.
Proof.
  destruct (is_nullish requirements) eqn:Hnull.
  - unfold createPaymentPayload. rewrite (js_get_nullish _ "payTo" Hnull).
    unfold bind, lift. discriminate.
  - destruct (js_get_not_nullish requirements "payTo" Hnull) as [to Hto].
    destruct (js_get_not_nullish requirements "maxAmountRequired" Hnull) as [value Hvalue].
    destruct (js_get_not_nullish requirements "scheme" Hnull) as [scheme Hscheme].
    rewrite (createPaymentPayload_run W wallet requirements network t to value scheme)
      by assumption.
    intros [= <- _]. reflexivity.
Qed.

Lemma string_forall_append p (a b : string) :
  string_forall p (a +:+ b) = string_forall p a && string_forall p b.
Proof.
  induction a as [|c a IH]; simpl; [reflexivity|]. rewrite IH. apply andb_assoc.
Qed.

Lemma createPaymentPayload_nullish wallet requirements network t :
  is_nullish requirements = true ->
  createPaymentPayload W wallet requirements network t =
  (Throw (TypeError_property "payTo"), t ++ [EvWallet]).
Proof.
  intros Hnull. unfold createPaymentPayload.
  rewrite (js_get_nullish _ "payTo" Hnull). reflexivity.
Qed.

(** X1. [getHealth] and [getSupported] make exactly one request, without an
    [init], to the configured URL followed by [/health] or [/supported],
    and give back the parsed body of whatever response comes, its status
    not being looked at; a failure of the network or of the parsing is
    thrown to the caller, nothing is logged and nothing is retried. *)
Theorem facilitator_queries_pass_through config t :
  let health := t ++ [EvFetch (facilitatorUrl config +:+ "/health") None] in
  let supported := t ++ [EvFetch (facilitatorUrl config +:+ "/supported") None] in
  (forall e, net W health = Throw e -> getHealth W config t = (Throw e, health)) /\
  (forall response, net W health = Ok response ->
                    getHealth W config t = (json response, health)) /\
  (forall e, net W supported = Throw e -> getSupported W config t = (Throw e, supported)) /\
  (forall response, net W supported = Ok response ->
                    getSupported W config t = (json response, supported)).
Proof.
  cbn zeta. unfold getHealth, getSupported, global_fetch, fetch_call, response_json,
    await, bind, lift, ret.
  repeat split; intros ? Hnet; rewrite Hnet; reflexivity.
Qed.

(** X3. The validity window of the payload: [validAfter] and [validBefore]
    are the decimal forms of two whole numbers of seconds whose difference
    is 3600 plus the seconds between the two readings of the clock; when the
    second reading is not before the first and less than a second after it,
    the window is 3600 or 3601 seconds, and it is 3600 when both readings
    fall in the same second. *)
Theorem createPaymentPayload_window wallet requirements network t :
  is_nullish requirements = false ->
  let first := clock W (t ++ [EvWallet; EvDateNow]) in
  let second := clock W (t ++ [EvWallet; EvDateNow; EvDateNow]) in
  exists paymentPayload payload after before,
    (createPaymentPayload W wallet requirements network t).1 = Ok paymentPayload /\
    js_get paymentPayload "payload" = Ok payload /\
    js_get payload "validAfter" = Ok (JStr (Z_toString after)) /\
    js_get payload "validBefore" = Ok (JStr (Z_toString before)) /\
    after = first / 1000 /\
    before - after = 3600 + (second / 1000 - first / 1000) /\
    (first <= second < first + 1000 -> 3600 <= before - after <= 3601) /\
    (first / 1000 = second / 1000 -> before - after = 3600).
Proof.
  intros Hobj first second.
  destruct (js_get_not_nullish requirements "payTo" Hobj) as [to Hto].
  destruct (js_get_not_nullish requirements "maxAmountRequired" Hobj) as [value Hvalue].
  destruct (js_get_not_nullish requirements "scheme" Hobj) as [scheme Hscheme].
  rewrite (createPaymentPayload_run W wallet requirements network t to value scheme)
    by assumption.
  fold first second.
  eexists. eexists. exists (first / 1000), (second / 1000 + 3600).
  split; [reflexivity|]. split; [reflexivity|]. split; [reflexivity|].
  split; [reflexivity|]. split; [reflexivity|]. split; [lia|]. split.
  - intros [Hle Hlt].
    assert (first / 1000 <= second / 1000) by (apply Z.div_le_mono; lia).
    assert (second / 1000 <= (first + 1 * 1000) / 1000) by (apply Z.div_le_mono; lia).
    rewrite Z.div_add in * by lia. lia.
  - intros Heq. lia.
Qed.

(** X4. The nonce: [0x] followed by 64 lower-case hexadecimal digits, the
    two-digit forms of the 32 random bytes in order, in Node's branch and
    in the browser's branch alike; one random event, nothing else. *)
Theorem generateNonce_format t :
  exists digits,
    generateNonce W t = (Ok ("0x" +:+ digits), t ++ [random_event W]) /\
    digits = Buffer_toString_hex (random32 W (t ++ [random_event W])) /\
    String.length digits = 64%nat /\
    string_forall is_hex_lower digits = true.
Proof.
  exists (Buffer_toString_hex (random32 W (t ++ [random_event W]))).
  split; [apply generateNonce_run|]. split; [reflexivity|]. split.
  - rewrite Buffer_toString_hex_length. unfold random32.
    now rewrite length_map, length_seq.
  - generalize (random32 W (t ++ [random_event W])). intros bytes.
    unfold Buffer_toString_hex. induction bytes as [|b bytes IH]; [reflexivity|].
    cbn [map join_empty foldr]. unfold join_empty in IH.
    rewrite string_forall_append, IH, andb_true_r.
    destruct b; reflexivity.
Qed.

(** X5. Every run of the client's [fetch] starts with the request as it
    was given and makes at most one more network call, to the same input;
    it asks the wallet at most once, and there is no second call without
    the wallet having been asked. *)
Theorem fetch_at_most_one_retry config input init t :
  exists added,
    (fetch W config input init t).2 = t ++ [EvFetch input init] ++ added /\
    (count is_fetch added <= 1)%nat /\
    count (is_fetch_to input) added = count is_fetch added /\
    (count is_wallet added <= 1)%nat /\
    (count is_fetch added <= count is_wallet added)%nat.
Proof.
  assert (Hstop : forall r : Outcome Response,
             exists added,
               (r, t ++ [EvFetch input init]).2 = t ++ [EvFetch input init] ++ added /\
               (count is_fetch added <= 1)%nat /\
               count (is_fetch_to input) added = count is_fetch added /\
               (count is_wallet added <= 1)%nat /\
               (count is_fetch added <= count is_wallet added)%nat).
  { intros r. exists []. split; [reflexivity|]. cbn. repeat split; lia. }
  destruct (net W (t ++ [EvFetch input init])) as [response|e] eqn:Hnet.
  2:{ unfold fetch, global_fetch, fetch_call, await, bind, lift. rewrite Hnet. apply Hstop. }
  destruct (Z.eqb_spec (status response) 402) as [Hstatus|Hstatus].
  2:{ unfold fetch, global_fetch, fetch_call, await, bind, lift. rewrite Hnet.
      destruct (Z.eqb_spec (status response) 402); [contradiction|]. apply Hstop. }
  destruct (json response) as [body|e] eqn:Hjson.
  2:{ unfold fetch, global_fetch, fetch_call, response_json, await, bind, lift.
      rewrite Hnet, Hstatus, Hjson. apply Hstop. }
  destruct (js_get body "paymentRequirements") as [requirements|e] eqn:Hreq.
  2:{ unfold fetch, global_fetch, fetch_call, response_json, await, bind, lift.
      rewrite Hnet, Hstatus, Hjson. cbn. rewrite Hreq. apply Hstop. }
  rewrite (fetch_402_run W config input init t response body requirements) by assumption.
  unfold bind at 1.
  pose proof (check_limit_trace (maxPaymentAmount config) requirements
                (t ++ [EvFetch input init])) as Htrace.
  destruct (check_limit _ _ _) as [[[]|e] t'] eqn:Hcheck; cbn in Htrace; subst t'.
  2:{ apply Hstop. }
  unfold bind at 1.
  destruct (is_nullish requirements) eqn:Hnull.
  - rewrite createPaymentPayload_nullish by assumption.
    exists [EvWallet]. rewrite <- app_assoc. repeat split; cbn; lia.
  - destruct (js_get_not_nullish requirements "payTo" Hnull) as [to Hto].
    destruct (js_get_not_nullish requirements "maxAmountRequired" Hnull) as [value Hvalue].
    destruct (js_get_not_nullish requirements "scheme" Hnull) as [scheme Hscheme].
    rewrite (createPaymentPayload_run W (wallet config) requirements
               (network_name (network config)) _ to value scheme) by assumption.
    assert (Hwallet : count is_wallet (payload_events W) = 1%nat).
    { unfold count, payload_events, random_event.
      destruct (negb (window_defined W)); reflexivity. }
    unfold bind at 1. unfold lift at 1.
    destruct (payment_headers init _ requirements) as [h|e].
    + unfold global_fetch, fetch_call, await, bind, lift.
      eexists (payload_events W ++ [EvFetch input (Some _)]).
      cbn [snd]. split; [rewrite <- !app_assoc; reflexivity|].
      rewrite !count_app.
      rewrite !(count_payload_events W) by reflexivity.
      rewrite Hwallet. unfold count. cbn. rewrite String.eqb_refl. cbn.
      repeat split; lia.
    + exists (payload_events W). cbn [snd].
      split; [rewrite <- !app_assoc; reflexivity|].
      rewrite !(count_payload_events W) by reflexivity.
      rewrite Hwallet. repeat split; lia.
Qed.

(** X6. What a malformed challenge does to [fetch]: a failure of the first
    call and a 402 body that is not JSON are thrown as they are; a 402 body
    that is [null], and requirements that are missing under a ceiling other
    than zero, throw the [TypeError] of the failed read; a [BigInt] that
    throws on the amount is thrown on. In all of these there is one network
    call and the wallet is not asked. With missing requirements and no
    ceiling (or a ceiling of zero) the wallet is asked first, then the
    [TypeError] of reading [payTo] is thrown, still without a retry. *)
Theorem fetch_malformed_challenge config input init t :
  let t1 := t ++ [EvFetch input init] in
  (forall e, net W t1 = Throw e -> fetch W config input init t = (Throw e, t1)) /\
  (forall response e,
      net W t1 = Ok response -> status response = 402 -> json response = Throw e ->
      fetch W config input init t = (Throw e, t1)) /\
  (forall response body,
      net W t1 = Ok response -> status response = 402 -> json response = Ok body ->
      is_nullish body = true ->
      fetch W config input init t = (Throw (TypeError_property "paymentRequirements"), t1)) /\
  (forall response body requirements,
      net W t1 = Ok response -> status response = 402 -> json response = Ok body ->
      js_get body "paymentRequirements" = Ok requirements ->
      is_nullish requirements = true ->
      (maxPaymentAmount config = None \/ maxPaymentAmount config = Some 0 ->
       fetch W config input init t =
       (Throw (TypeError_property "payTo"), t1 ++ [EvWallet])) /\
      (forall limit, maxPaymentAmount config = Some limit -> limit <> 0 ->
                     fetch W config input init t =
                     (Throw (TypeError_property "maxAmountRequired"), t1))) /\
  (forall response body requirements limit amount e,
      net W t1 = Ok response -> status response = 402 -> json response = Ok body ->
      js_get body "paymentRequirements" = Ok requirements ->
      maxPaymentAmount config = Some limit -> limit <> 0 ->
      js_get requirements "maxAmountRequired" = Ok amount -> BigInt amount = Throw e ->
      fetch W config input init t = (Throw e, t1)).
Proof.
  cbn zeta. repeat match goal with |- _ /\ _ => split end.
  - intros e Hnet. unfold fetch, global_fetch, fetch_call, await, bind, lift.
    now rewrite Hnet.
  - intros response e Hnet Hstatus Hjson.
    unfold fetch, global_fetch, fetch_call, response_json, await, bind, lift.
    now rewrite Hnet, Hstatus, Hjson.
  - intros response body Hnet Hstatus Hjson Hnull.
    unfold fetch, global_fetch, fetch_call, response_json, await, bind, lift.
    rewrite Hnet, Hstatus, Hjson. cbn.
    now rewrite (js_get_nullish _ "paymentRequirements" Hnull).
  - intros response body requirements Hnet Hstatus Hjson Hreq Hnull. split.
    + intros Hlimit.
      rewrite (fetch_402_run W config input init t response body requirements)
        by assumption.
      unfold bind at 1. rewrite check_limit_skipped by assumption.
      unfold bind at 1. now rewrite createPaymentPayload_nullish by assumption.
    + intros limit Hlimit Hnz.
      rewrite (fetch_402_run W config input init t response body requirements)
        by assumption.
      unfold bind at 1. rewrite Hlimit. unfold check_limit.
      destruct (Z.eqb_spec limit 0) as [|_]; [contradiction|].
      now rewrite (js_get_nullish _ "maxAmountRequired" Hnull).
  - intros response body requirements limit amount e
           Hnet Hstatus Hjson Hreq Hlimit Hnz Hamount Hbig.
    rewrite (fetch_402_run W config input init t response body requirements)
      by assumption.
    unfold bind at 1. rewrite Hlimit. unfold check_limit.
    destruct (Z.eqb_spec limit 0) as [|_]; [contradiction|].
    rewrite Hamount. unfold bind, lift. now rewrite Hbig.
Qed.

End ClientEdges.

(* ===================================================================== *)
(** ** The server: construction, missing envelopes, the whole middleware *)
(* ===================================================================== *)

Section ServerEdges.
Context `{RT : JsRuntime} (W : World).
Import Server.

Lemma strip_trailing_slash_added base :
  strip_trailing_slash (base +:+ "/") = base.
Proof.
  induction base as [|c base IH]; [reflexivity|].
  change (String c base +:+ "/") with (String c (base +:+ "/")).
  cbn [strip_trailing_slash]. rewrite IH.
  destruct (base +:+ "/") eqn:Hrest; [|reflexivity].
  destruct base; discriminate.
Qed.

Lemma strip_trailing_slash_none s :
  ends_with_slash s = false -> strip_trailing_slash s = s.
Proof.
  induction s as [|c s IH]; [reflexivity|].
  cbn [ends_with_slash strip_trailing_slash].
  destruct s as [|d s].
  - intros ->. reflexivity.
  - intros Hs. now rewrite IH.
Qed.

(** X7. The constructor removes exactly one trailing slash of the
    facilitator's URL: a URL given with a final slash and the same URL
    given without it make the same handler, a URL without a final slash is
    kept, and of two final slashes one stays. *)
Theorem handler_url_normalised network treasury base :
  let make u := new_KovaPaymentHandler
                  {| config_facilitatorUrl := u; config_network := network;
                     config_treasuryAddress := treasury |} in
  facilitatorUrl (make (base +:+ "/")) = base /\
  facilitatorUrl (make (base +:+ "//")) = base +:+ "/" /\
  (ends_with_slash base = false ->
   facilitatorUrl (make base) = base /\ make (base +:+ "/") = make base).
Proof.
  cbn zeta. unfold new_KovaPaymentHandler. cbn [facilitatorUrl config_facilitatorUrl
    config_network config_treasuryAddress].
  split; [apply strip_trailing_slash_added|]. split.
  - replace (base +:+ "//") with ((base +:+ "/") +:+ "/").
    + apply strip_trailing_slash_added.
    + induction base as [|c base IH]; [reflexivity|].
      change (String c ((base +:+ "/") +:+ "/") = String c (base +:+ "//")).
      now rewrite IH.
  - intros Hbase. rewrite strip_trailing_slash_added, strip_trailing_slash_none by assumption.
    split; reflexivity.
Qed.

(** X8. Given [null] or [undefined] for the envelope, neither facilitator
    call reaches the network: [verifyPayment] logs the [TypeError] and
    returns [false], [settlePayment] logs it and throws it. *)
Theorem facilitator_calls_without_envelope this payment requirements t :
  is_nullish payment = true ->
  let error := TypeError_property "paymentPayload" in
  verifyPayment W this payment requirements t =
    (Ok false, t ++ [EvConsoleError (Some "Payment verification failed:") error]) /\
  settlePayment W this payment requirements t =
    (Throw error, t ++ [EvConsoleError (Some "Payment settlement failed:") error]).
Proof.
  intros Hnull. cbn zeta. rewrite verifyPayment_run, settlePayment_run.
  unfold facilitator_init. destruct payment; try discriminate; split; reflexivity.
Qed.

Lemma facilitator_init_same payment1 payment2 requirements :
  js_get payment1 "paymentPayload" = js_get payment2 "paymentPayload" ->
  facilitator_init payment1 requirements = facilitator_init payment2 requirements.
Proof. intros Hsame. unfold facilitator_init. now rewrite Hsame. Qed.

(** X9. Every run of the middleware returns normally and either answers
    402 or calls [next], exactly one of the two and once; it issues a
    settlement request exactly when it calls [next], calls the facilitator
    for verification at most once and the network at most twice, and
    invokes the callback at most once and only when it calls [next]. *)
Theorem middleware_answers_once this config req t :
  exists added,
    middleware W this config req t = (Ok tt, t ++ added) /\
    (count is_respond added + count is_next added = 1)%nat /\
    count (is_fetch_to (facilitatorUrl this +:+ "/settle")) added = count is_next added /\
    (count (is_fetch_to (facilitatorUrl this +:+ "/verify")) added <= 1)%nat /\
    (count is_fetch added <= 2)%nat /\
    (count is_callback added <= count is_next added)%nat.
Proof.
  unfold middleware.
  set (requirements := createPaymentRequirements this _ _ _).
  destruct (extractPayment (ArgRecord (headers req))) as [payment|] eqn:Hextract.
  2:{ eexists [_]. split; [reflexivity|]. cbn. repeat split; lia. }
  destruct (proj1 (extractPayment_Some _ _) Hextract)
    as (s & pp & pr & _ & _ & _ & Hpp & _).
  pose proof (facilitator_init_object _ _ requirements Hpp) as Hinit.
  set (init := post_json _) in Hinit.
  unfold bind at 1. rewrite verifyPayment_run, Hinit. cbn zeta.
  set (verify := EvFetch (facilitatorUrl this +:+ "/verify") (Some init)).
  assert (Hverify : forall kind, count kind [verify] = if kind verify then 1%nat else 0%nat).
  { intros kind. unfold count. cbn. now destruct (kind verify). }
  assert (Hrefused : forall logs,
             (logs = [] \/ exists e, logs = [EvConsoleError (Some "Payment verification failed:") e]) ->
             exists added,
               res_status_json 402 (JObj [("error", JStr "Invalid payment")])
                               ((t ++ [verify]) ++ logs) = (Ok tt, t ++ added) /\
               (count is_respond added + count is_next added = 1)%nat /\
               count (is_fetch_to (facilitatorUrl this +:+ "/settle")) added
                 = count is_next added /\
               (count (is_fetch_to (facilitatorUrl this +:+ "/verify")) added <= 1)%nat /\
               (count is_fetch added <= 2)%nat /\
               (count is_callback added <= count is_next added)%nat).
  { intros logs Hlogs.
    exists ([verify] ++ logs ++ [EvRespond 402 (JObj [("error", JStr "Invalid payment")])]).
    split; [unfold res_status_json, emit; now rewrite <- !app_assoc|].
    rewrite !count_app, !Hverify.
    assert (Hsettle : is_fetch_to (facilitatorUrl this +:+ "/settle") verify = false)
      by apply verify_is_not_settle.
    rewrite Hsettle. subst verify. cbn [is_respond is_next is_fetch is_callback is_fetch_to].
    rewrite String.eqb_refl.
    destruct Hlogs as [-> | [e ->]]; cbn; repeat split; lia. }
  destruct (net W _) as [response|e0].
  2:{ cbn [negb]. apply (Hrefused [_]). right. eauto. }
  destruct (json response) as [result|e1].
  2:{ cbn [negb]. apply (Hrefused [_]). right. eauto. }
  destruct (js_get result "isValid") as [isValid|e2].
  2:{ cbn [negb]. apply (Hrefused [_]). right. eauto. }
  destruct (strict_eq_true isValid); cbn [negb].
  2:{ destruct (Hrefused []) as (added & Hrun & Hrest); [now left|].
      rewrite app_nil_r in Hrun. eauto. }
  unfold bind at 1.
  set (callback := if onPaymentVerified config then [EvCallback payment] else []).
  assert (Hcallback :
            (if onPaymentVerified config then emit (EvCallback payment) else ret tt)
              (t ++ [verify]) = (Ok tt, (t ++ [verify]) ++ callback)).
  { subst callback. destruct (onPaymentVerified config); cbn.
    - reflexivity.
    - unfold ret. now rewrite app_nil_r. }
  rewrite Hcallback, (settle_in_background W this payment requirements init _ Hinit).
  eexists ([verify] ++ callback ++ [_; EvNext] ++ settle_aftermath _).
  split; [now rewrite <- !app_assoc|].
  rewrite !count_app, !Hverify.
  rewrite !(settle_aftermath_logs_only _ _) by reflexivity.
  assert (Hsettle : is_fetch_to (facilitatorUrl this +:+ "/settle") verify = false)
    by apply verify_is_not_settle.
  assert (Hother : String.eqb (facilitatorUrl this +:+ "/settle")
                              (facilitatorUrl this +:+ "/verify") = false).
  { rewrite String.eqb_sym. apply verify_is_not_settle. }
  rewrite Hsettle. subst verify callback.
  cbn [is_respond is_next is_fetch is_callback is_fetch_to]. rewrite String.eqb_refl.
  unfold count. cbn. rewrite String.eqb_refl, Hother.
  destruct (onPaymentVerified config); cbn; repeat split; lia.
Qed.

Lemma or_else_nonempty a b : b <> "" -> or_else a b <> "".
Proof.
  intros Hb. unfold or_else. destruct a as [s|]; [|exact Hb].
  destruct (String.eqb_spec s ""); assumption.
Qed.

(** X10. The challenge the middleware sends to a request without a payment:
    status 402, the error text, version 1, and requirements with the scheme
    [exact], the handler's network and treasury address, the configured
    amount and no asset; their resource is the first non-empty one of the
    configured resource, [req.originalUrl] and [req.url], and ["/"] when
    there is none, so it is never empty. *)
Theorem middleware_challenge this config req t :
  extractPayment (ArgRecord (headers req)) = None ->
  exists body requirements chosen,
    middleware W this config req t = (Ok tt, t ++ [EvRespond 402 body]) /\
    js_get body "error" = Ok (JStr "Payment Required") /\
    js_get body "x402Version" = Ok (JNum 1) /\
    js_get body "paymentRequirements" = Ok requirements /\
    js_get requirements "scheme" = Ok (JStr "exact") /\
    js_get requirements "network" = Ok (JStr (network this)) /\
    js_get requirements "payTo" = Ok (JStr (treasuryAddress this)) /\
    js_get requirements "maxAmountRequired" = Ok (JStr (amount config)) /\
    js_get requirements "asset" = Ok JUndefined /\
    js_get requirements "resource" = Ok (JStr chosen) /\
    chosen <> "" /\
    (forall r, resource config = Some r -> r <> "" -> chosen = r) /\
    (forall r, or_else (resource config) "" = "" ->
               originalUrl req = Some r -> r <> "" -> chosen = r) /\
    (forall r, or_else (resource config) "" = "" -> or_else (originalUrl req) "" = "" ->
               url req = Some r -> r <> "" -> chosen = r) /\
    (or_else (resource config) "" = "" -> or_else (originalUrl req) "" = "" ->
     or_else (url req) "" = "" -> chosen = "/").
Proof.
  intros Hnone. unfold middleware. rewrite Hnone.
  eexists. eexists.
  exists (or_else (resource config) (or_else (originalUrl req) (or_else (url req) "/"))).
  split; [reflexivity|].
  repeat match goal with |- _ /\ _ => split end; try reflexivity.
  - repeat apply or_else_nonempty. discriminate.
  - intros r -> Hr. unfold or_else at 1. now destruct (String.eqb_spec r "").
  - intros r Hconfig -> Hr. unfold or_else in *.
    destruct (resource config) as [c|].
    + destruct (String.eqb_spec c ""); [|contradiction].
      now destruct (String.eqb_spec r "").
    + now destruct (String.eqb_spec r "").
  - intros r Hconfig Horiginal -> Hr. unfold or_else in *.
    destruct (resource config) as [c|]; [destruct (String.eqb_spec c ""); [|contradiction]|];
      (destruct (originalUrl req) as [o|];
       [destruct (String.eqb_spec o ""); [|contradiction]|]);
      now destruct (String.eqb_spec r "").
  - intros Hconfig Horiginal Hurl. unfold or_else in *.
    destruct (resource config) as [c|]; [destruct (String.eqb_spec c ""); [|contradiction]|];
      (destruct (originalUrl req) as [o|];
       [destruct (String.eqb_spec o ""); [|contradiction]|]);
      (destruct (url req) as [u|];
       [destruct (String.eqb_spec u ""); [|contradiction]|]);
      reflexivity.
Qed.

(** X11. Without a callback, the middleware reads the envelope only for its
    [paymentPayload]: two requests for the same URL whose envelopes carry
    the same payload, whatever requirements they embed, are handled alike,
    event for event: what is verified and settled are the requirements the
    handler builds, not the ones the client presents. *)
Theorem middleware_reads_payload_only this config req1 req2 payment1 payment2 t :
  originalUrl req1 = originalUrl req2 -> url req1 = url req2 ->
  extractPayment (ArgRecord (headers req1)) = Some payment1 ->
  extractPayment (ArgRecord (headers req2)) = Some payment2 ->
  js_get payment1 "paymentPayload" = js_get payment2 "paymentPayload" ->
  onPaymentVerified config = false ->
  middleware W this config req1 t = middleware W this config req2 t.
Proof.
  intros Horiginal Hurl H1 H2 Hsame Hcallback.
  unfold middleware. rewrite H1, H2, Horiginal, Hurl, Hcallback.
  set (requirements := createPaymentRequirements this _ _ _).
  pose proof (facilitator_init_same payment1 payment2 requirements Hsame) as Hinit.
  unfold bind at 1. symmetry. unfold bind at 1. symmetry.
  rewrite !verifyPayment_run, Hinit.
  destruct (facilitator_init payment2 requirements) as [init|e] eqn:Hinit2; [|reflexivity].
  cbn zeta.
  destruct (net W _) as [response|e0]; [|reflexivity].
  destruct (json response) as [result|e1]; [|reflexivity].
  destruct (js_get result "isValid") as [isValid|e2]; [|reflexivity].
  destruct (strict_eq_true isValid); [|reflexivity]. cbn [negb].
  unfold bind at 1. unfold ret at 1. cbn beta iota.
  rewrite (settle_in_background W this payment1 requirements init _ Hinit).
  symmetry.
  unfold bind at 1. unfold ret at 1. cbn beta iota.
  rewrite (settle_in_background W this payment2 requirements init _ Hinit2).
  reflexivity.
Qed.

(** X14. [createPaymentRequirements] names an asset exactly when it is
    given a non-empty one: without an asset, and with the empty string for
    it, the requirements are the same five fields and [asset] reads
    [undefined]; whatever the asset, the scheme is [exact] and the payee,
    amount and resource are the handler's address and the arguments. *)
Theorem createPaymentRequirements_asset this amount resource asset :
  let requirements := createPaymentRequirements this amount resource asset in
  js_get requirements "scheme" = Ok (JStr "exact") /\
  js_get requirements "payTo" = Ok (JStr (treasuryAddress this)) /\
  js_get requirements "maxAmountRequired" = Ok (JStr amount) /\
  js_get requirements "resource" = Ok (JStr resource) /\
  (forall a, asset = Some a -> a <> "" -> js_get requirements "asset" = Ok (JStr a)) /\
  (asset = None \/ asset = Some "" ->
   js_get requirements "asset" = Ok JUndefined /\
   requirements = createPaymentRequirements this amount resource None).
Proof.
  cbn zeta. repeat match goal with |- _ /\ _ => split end; try reflexivity.
  - intros a -> Ha. unfold createPaymentRequirements.
    destruct (String.eqb_spec a ""); [contradiction|]. reflexivity.
  - intros [-> | ->]; split; reflexivity.
Qed.

End ServerEdges.

(* ===================================================================== *)
(** ** The handshake: the server's challenge and the client's answer *)
(* ===================================================================== *)

Section Handshake.
Context `{RT : JsRuntime} (W : World).

(** X12. The challenge of the server is payable by the client: the body
    made by [create402Response] has status 402 and gives back the
    requirements under [paymentRequirements], and on the requirements made
    by [createPaymentRequirements] the client's payload never fails; it
    pays the handler's treasury address the configured amount under the
    scheme [exact]. Its network is the client's own, whatever network the
    requirements name. *)
Theorem challenge_is_payable this amount resource asset wallet network t :
  let requirements := Server.createPaymentRequirements this amount resource asset in
  let challenge := Server.create402Response requirements in
  Server.response_status challenge = 402 /\
  js_get (Server.response_body challenge) "paymentRequirements" = Ok requirements /\
  js_get requirements "network" = Ok (JStr (Server.network this)) /\
  exists payload,
    Client.createPaymentPayload W wallet requirements network t =
      (Ok (JObj [("x402Version", JNum 1); ("scheme", JStr "exact");
                 ("network", JStr network); ("payload", payload)]),
       t ++ payload_events W) /\
    js_get payload "from" = Ok (JStr (Client.publicKey_toBase58 wallet)) /\
    js_get payload "to" = Ok (JStr (Server.treasuryAddress this)) /\
    js_get payload "value" = Ok (JStr amount).
Proof.
  cbn zeta. split; [reflexivity|]. split; [reflexivity|]. split; [reflexivity|].
  eexists. split.
  - apply (createPaymentPayload_run W wallet _ network t
             (JStr (Server.treasuryAddress this)) (JStr amount) (JStr "exact"));
      reflexivity.
  - repeat split; reflexivity.
Qed.

(** X13. The answer of the client is read by the server: when the runtime
    parses the text of the envelope back into the envelope, the
    [X-Payment] header of the retry, whenever the client could set it,
    makes [extractPayment] return that envelope from the [Headers] of the
    retry (the text having no whitespace at its ends, as the JSON text of
    an object has none); and so does an Express-style record that holds the
    text under [x-payment], as a string or as the first of a list. *)
Theorem retry_header_is_extracted wallet requirements network t paymentPayload t' init :
  Client.createPaymentPayload W wallet requirements network t = (Ok paymentPayload, t') ->
  truthy requirements = true ->
  let sent := Client.envelope paymentPayload requirements in
  JSON_stringify sent <> "" ->
  JSON_parse (JSON_stringify sent) = Some sent ->
  (forall h,
      Client.payment_headers init paymentPayload requirements = Ok h ->
      normalize_value (JSON_stringify sent) = JSON_stringify sent ->
      init_headers (init_with_headers init h) = Some (InitHeaders h) /\
      Server.extractPayment (Server.ArgHeaders h) = Some sent) /\
  Server.extractPayment
    (Server.ArgRecord {[ "x-payment" := Server.HString (JSON_stringify sent) ]})
    = Some sent /\
  Server.extractPayment
    (Server.ArgRecord {[ "x-payment" := Server.HList [JSON_stringify sent] ]})
    = Some sent.
Proof.
  intros Hbuilt Hreq sent Hnonempty Hparse.
  pose proof (createPaymentPayload_truthy W wallet requirements network t
                paymentPayload t' Hbuilt) as Hpayload.
  assert (Hfound : forall headers,
             Server.paymentHeader_of headers = Some (JSON_stringify sent) ->
             Server.extractPayment headers = Some sent).
  { intros headers Hheader. apply extractPayment_Some.
    exists (JSON_stringify sent), paymentPayload, requirements.
    repeat split; try assumption; reflexivity. }
  split; [|split].
  - intros h Hh Htrimmed. split.
    + unfold init_with_headers. destruct init; reflexivity.
    + apply Hfound. unfold Server.paymentHeader_of.
      destruct (payment_headers_Ok init paymentPayload requirements h Hh) as [Hget _].
      rewrite Hget. fold sent. now rewrite Htrimmed.
  - apply Hfound. unfold Server.paymentHeader_of.
    rewrite lookup_singleton_eq. cbn [Server.header_truthy].
    apply String.eqb_neq in Hnonempty. now rewrite Hnonempty.
  - apply Hfound. unfold Server.paymentHeader_of.
    rewrite lookup_singleton_eq. reflexivity.
Qed.

End Handshake.

(* ===================================================================== *)
(** ** More concrete runs *)
(* ===================================================================== *)

Section MoreRuns.
Import Samples MoreSamples.

(** [facilitator_queries_pass_through] on an answer of status 503 with a
    JSON body, and on a network failure. *)
Lemma facilitator_queries_pass_through_witness :
  status unhealthy = 503 /\
  Client.getHealth (world [Ok unhealthy] [] false) (client_config None) [] =
    (Ok (JObj [("status", JStr "unhealthy")]),
     [EvFetch "https://kova402.com/api/v1/health" None]) /\
  (Client.getSupported (world [] [] false) (client_config None) []).1 =
    Throw network_error.
Proof.
  split; [reflexivity|]. split.
  - apply (proj1 (proj2 (facilitator_queries_pass_through
                           (world [Ok unhealthy] [] false) (client_config None) []))
             unhealthy).
    vm_compute; reflexivity.
  - rewrite (proj1 (proj2 (proj2 (facilitator_queries_pass_through
                                    (world [] [] false) (client_config None) [])))
               network_error); vm_compute; reflexivity.
Defined.

(** [createPaymentPayload_window] when both readings fall in one second. *)
Lemma createPaymentPayload_window_witness :
  is_nullish requirements = false /\
  1700000000100 / 1000 = 1700000000900 / 1000 /\
  exists paymentPayload payload after before,
    (Client.createPaymentPayload same_second_world wallet requirements
                                 "solana-devnet" []).1 = Ok paymentPayload /\
    js_get paymentPayload "payload" = Ok payload /\
    js_get payload "validAfter" = Ok (JStr (Z_toString after)) /\
    js_get payload "validBefore" = Ok (JStr (Z_toString before)) /\
    before - after = 3600.
Proof.
  split; [reflexivity|]. split; [reflexivity|].
  destruct (createPaymentPayload_window same_second_world wallet requirements
              "solana-devnet" [] eq_refl)
    as (paymentPayload & payload & after & before & Hrun & Hpayload & Hafter & Hbefore
        & _ & _ & _ & Hsame).
  exists paymentPayload, payload, after, before.
  repeat split; try assumption. apply Hsame. vm_compute; reflexivity.
Defined.

(** [fetch_malformed_challenge] on a network failure and on a 402 answer
    whose body is [null]. *)
Lemma fetch_malformed_challenge_witness :
  Client.fetch (RT := runtime) (world [] [] false) (client_config None) endpoint None [] =
    (Throw network_error, [EvFetch endpoint None]) /\
  Client.fetch (RT := runtime) null_challenge_world (client_config None) endpoint None [] =
    (Throw (TypeError_property "paymentRequirements"), [EvFetch endpoint None]).
Proof.
  split.
  - apply (proj1 (fetch_malformed_challenge (RT := runtime) (world [] [] false)
                    (client_config None) endpoint None []) network_error).
    vm_compute; reflexivity.
  - apply (proj1 (proj2 (proj2 (fetch_malformed_challenge (RT := runtime)
                                  null_challenge_world (client_config None)
                                  endpoint None [])))
             (response_of 402 JNull) JNull); vm_compute; reflexivity.
Defined.

(** [handler_url_normalised] on the URL of the samples. *)
Lemma handler_url_normalised_witness :
  ends_with_slash "https://kova402.com/api/v1" = false /\
  Server.facilitatorUrl handler = "https://kova402.com/api/v1".
Proof.
  split; [reflexivity|].
  apply (proj1 (handler_url_normalised solana_devnet "treasuryAddress"
                  "https://kova402.com/api/v1")).
Defined.

(** [facilitator_calls_without_envelope] on [null]. *)
Lemma facilitator_calls_without_envelope_witness :
  is_nullish JNull = true /\
  (Server.verifyPayment (RT := runtime) (world [facilitator_says true] [] false) handler
                        JNull server_requirements []).1 = Ok false /\
  count is_fetch
    (Server.verifyPayment (RT := runtime) (world [facilitator_says true] [] false) handler
                          JNull server_requirements []).2 = 0%nat.
Proof.
  split; [reflexivity|].
  rewrite (proj1 (facilitator_calls_without_envelope (RT := runtime)
                    (world [facilitator_says true] [] false) handler JNull
                    server_requirements [] eq_refl)).
  split; reflexivity.
Defined.

(** [middleware_challenge] on the request without a header. *)
Lemma middleware_challenge_witness :
  Server.extractPayment (RT := runtime) (Server.ArgRecord (Server.headers bare_request))
    = None /\
  exists body requirements,
    Server.middleware (RT := runtime) (world [] [] false) handler quiet_config
                      bare_request [] = (Ok tt, [EvRespond 402 body]) /\
    js_get body "paymentRequirements" = Ok requirements /\
    js_get requirements "resource" = Ok (JStr "/api/data").
Proof.
  split; [reflexivity|].
  destruct (middleware_challenge (RT := runtime) (world [] [] false) handler quiet_config
              bare_request [] eq_refl)
    as (body & requirements & chosen & Hrun & _ & _ & Hreq & _ & _ & _ & _ & _ & Hres
        & _ & _ & Horiginal & _).
  exists body, requirements. split; [exact Hrun|]. split; [exact Hreq|].
  rewrite Hres. rewrite (Horiginal "/api/data"); first [reflexivity | discriminate].
Defined.

(** [middleware_reads_payload_only] on the paying request and on the one
    that embeds other requirements. *)
Lemma middleware_reads_payload_only_witness :
  js_get payment "paymentRequirements" <> js_get payment_other "paymentRequirements" /\
  Server.middleware (RT := runtime) (world [facilitator_says true; Ok served] [] false)
                    handler quiet_config paying_request [] =
  Server.middleware (RT := runtime) (world [facilitator_says true; Ok served] [] false)
                    handler quiet_config other_request [].
Proof.
  split; [vm_compute; discriminate|].
  apply (middleware_reads_payload_only (RT := runtime)
           (world [facilitator_says true; Ok served] [] false) handler quiet_config
           paying_request other_request payment payment_other []);
    first [reflexivity | vm_compute; reflexivity].
Defined.

(** [retry_header_is_extracted] on the payload built in the paying world. *)
Lemma retry_header_is_extracted_witness :
  Client.createPaymentPayload paying_world wallet requirements "solana-devnet" [] =
    (Ok built_payload, payload_events paying_world) /\
  truthy requirements = true /\
  JSON_parse (JsRuntime := handshake_runtime) (stringify built_envelope)
    = Some built_envelope /\
  Client.payment_headers (RT := handshake_runtime) None built_payload requirements
    = Ok built_Headers /\
  normalize_value (stringify built_envelope) = stringify built_envelope /\
  Server.extractPayment (RT := handshake_runtime) (Server.ArgHeaders built_Headers)
    = Some built_envelope /\
  Server.extractPayment (RT := handshake_runtime)
    (Server.ArgRecord {[ "x-payment" := Server.HString (stringify built_envelope) ]})
    = Some built_envelope.
Proof.
  assert (Hbuilt : Client.createPaymentPayload paying_world wallet requirements
                     "solana-devnet" [] = (Ok built_payload, payload_events paying_world))
    by (vm_compute; reflexivity).
  assert (Hparse : JSON_parse (JsRuntime := handshake_runtime) (stringify built_envelope)
                   = Some built_envelope) by (vm_compute; reflexivity).
  assert (Hheaders : Client.payment_headers (RT := handshake_runtime) None built_payload
                       requirements = Ok built_Headers) by (vm_compute; reflexivity).
  assert (Htrimmed : normalize_value (stringify built_envelope) = stringify built_envelope)
    by (vm_compute; reflexivity).
  split; [exact Hbuilt|]. split; [reflexivity|]. split; [exact Hparse|].
  split; [exact Hheaders|]. split; [exact Htrimmed|].
  destruct (retry_header_is_extracted (RT := handshake_runtime) paying_world wallet
              requirements "solana-devnet" [] built_payload
              (payload_events paying_world) None Hbuilt eq_refl
              ltac:(vm_compute; discriminate) Hparse)
    as (Hretry & Hrecord & _).
  split; [|exact Hrecord].
  apply (Hretry built_Headers Hheaders Htrimmed).
Defined.

(** [createPaymentPayload_fields] on the requirements of the tests. *)
Lemma createPaymentPayload_fields_witness :
  is_nullish requirements = false /\
  exists payload nonce,
    js_get payload "to" = Ok (JStr "recipientAddress") /\
    js_get payload "value" = Ok (JStr "1000000") /\
    js_get payload "nonce" = Ok (JStr nonce) /\
    String.length nonce = 66%nat.
Proof.
  split; [reflexivity|].
  destruct (createPaymentPayload_fields paying_world wallet requirements
              "solana-devnet" [] eq_refl)
    as (to & value & scheme & payload & nonce & Hto & Hvalue & _ & _ & _ & Hpto & Hpvalue
        & _ & _ & Hnonce & _ & Hlength & _).
  exists payload, nonce.
  vm_compute in Hto. vm_compute in Hvalue.
  injection Hto as <-. injection Hvalue as <-.
  repeat split; assumption.
Defined.

(** [fetch_rejects_over_limit] on the case of the tests: 1000000 asked
    under a ceiling of 500000. *)
Lemma fetch_rejects_over_limit_witness :
  bigint_of (JStr "1000000") = Ok 1000000 /\
  1000000 > 500000 /\
  Client.fetch (RT := runtime) paying_world (client_config (Some 500000)) endpoint None [] =
    (Throw (new_Error "Payment amount 1000000 exceeds maximum 500000"),
     [EvFetch endpoint None]).
Proof.
  split; [reflexivity|]. split; [reflexivity|].
  assert (Hnet : net paying_world ([] ++ [EvFetch endpoint None]) =
                 Ok (response_of 402 body402)) by (vm_compute; reflexivity).
  apply (fetch_rejects_over_limit (RT := runtime) paying_world (client_config (Some 500000))
           endpoint None [] (response_of 402 body402) body402 requirements
           500000 (JStr "1000000") 1000000 Hnet);
    first [reflexivity | discriminate].
Defined.

(** [createPaymentRequirements_asset] with an asset and with the empty
    string for it. *)
Lemma createPaymentRequirements_asset_witness :
  js_get (Server.createPaymentRequirements handler "1000000" "/api/data" (Some "USDC"))
         "asset" = Ok (JStr "USDC") /\
  Server.createPaymentRequirements handler "1000000" "/api/data" (Some "") =
  server_requirements.
Proof.
  split.
  - apply (proj1 (proj2 (proj2 (proj2 (proj2
             (createPaymentRequirements_asset handler "1000000" "/api/data"
                (Some "USDC")))))) "USDC" eq_refl).
    discriminate.
  - apply (proj2 (proj2 (proj2 (proj2 (proj2
             (createPaymentRequirements_asset handler "1000000" "/api/data"
                (Some "")))))) (or_intror eq_refl)).
Defined.

End MoreRuns.
